(** * The Hayabusa JSON-timeline worker task ([src/json_timeline.py])

    A shallow embedding of the Celery task [json_timeline]: the staging of
    the input files as hard links in a fresh directory, the launch of the
    external tool, the polling loop with its heartbeat events, the removal
    of the staging directory and the construction of the task result.

    The task is effectful code.  It is embedded in a small state-and-error
    monad over a [World] made of a file system and the chronological list
    of the calls the task made to the outside.  Everything the task cannot
    decide itself (the helpers of [openrelik_worker_common], the random
    name drawn by [uuid4], refusals of the operating system, the behaviour
    of the external tool) is read from an environment record [Env]. *)

From stdpp Require Import gmap strings list fin_maps.
From Stdlib Require Import ZArith Ascii String.

Local Open Scope string_scope.
Local Open Scope list_scope.
Local Open Scope nat_scope.

(** ** Paths *)

Definition slash : ascii := "/"%char.

(** [no_slash s]: the string has no path separator in it. *)
Fixpoint no_slash (s : string) : bool :=
  match s with
  | EmptyString => true
  | String c r => if decide (c = slash) then false else no_slash r
  end.

(** Split a path at its last separator: [(Some parent, name)], or
    [(None, path)] for a path with no separator. *)
Fixpoint rsplit (p : string) : option string * string :=
  match p with
  | EmptyString => (None, EmptyString)
  | String c r =>
      match rsplit r with
      | (Some d, n) => (Some (String c d), n)
      | (None, n) =>
          if decide (c = slash) then (Some EmptyString, n)
          else (None, String c n)
      end
  end.

(** [os.path.basename]: what follows the last separator. *)
Definition basename (p : string) : string := (rsplit p).2.

(** The directory a path is resolved in: the text before the last
    separator ([""] is the root), or the current directory ["."]. *)
Definition parent (p : string) : string := default "." (rsplit p).1.

Definition starts_with_slash (s : string) : bool :=
  match s with
  | String c _ => bool_decide (c = slash)
  | EmptyString => false
  end.

Fixpoint ends_with_slash (s : string) : bool :=
  match s with
  | EmptyString => false
  | String c EmptyString => bool_decide (c = slash)
  | String _ r => ends_with_slash r
  end.

(** [os.path.join] on two components (posixpath). *)
Definition os_path_join (a b : string) : string :=
  if starts_with_slash b then b
  else if bool_decide (a = "") || ends_with_slash a then a +:+ b
  else a +:+ "/" +:+ b.

(** [str.join] *)
Fixpoint join (sep : string) (l : list string) : string :=
  match l with
  | [] => ""
  | [x] => x
  | x :: r => x +:+ sep +:+ join sep r
  end.

(** ** File system

    Directories are kept by path; each holds its entries by name.  A
    regular file is an inode number, so that two hard links to one file
    are two entries with the same number; file contents live in the
    inode table.  Paths are taken literally (no normalisation, no
    symbolic links). *)

Inductive Node := File (ino : nat) | Subdir.

Global Instance Node_eq_dec : EqDecision Node.
Proof. solve_decision. Defined.

Record FS := mkFS {
  dirs : gmap string (gmap string Node);
  inodes : gmap nat string;
}.

Inductive Errno := ENOENT | EEXIST | EPERM | ENOTDIR | EACCES | EXDEV | ENOSPC.

Global Instance Errno_eq_dec : EqDecision Errno.
Proof. solve_decision. Defined.

Definition lookup_node (fs : FS) (p : string) : option Node :=
  dirs fs !! parent p ≫= λ m, m !! basename p.

Definition is_dir (fs : FS) (p : string) : bool :=
  bool_decide (is_Some (dirs fs !! p)).

(** [os.path.exists] *)
Definition path_exists (fs : FS) (p : string) : bool :=
  is_dir fs p || bool_decide (is_Some (lookup_node fs p)).

(** The bytes behind a path, when it names a regular file. *)
Definition file_content (fs : FS) (p : string) : option string :=
  match lookup_node fs p with
  | Some (File i) => inodes fs !! i
  | _ => None
  end.

(** Names no entry can be created under. *)
Definition reserved_name (n : string) : bool :=
  bool_decide (n = "") || bool_decide (n = ".") || bool_decide (n = "..").

(** mkdir(2): the path must be free and its parent a directory. *)
Definition fs_mkdir (fs : FS) (p : string) : Errno + FS :=
  if path_exists fs p || reserved_name (basename p) then inl EEXIST
  else match dirs fs !! parent p with
       | None => inl ENOENT
       | Some m =>
           inr (mkFS (<[p := ∅]> (<[parent p := <[basename p := Subdir]> m]> (dirs fs)))
                     (inodes fs))
       end.

(** link(2): the source must be a regular file, the destination free
    and its parent a directory; the new entry shares the source's inode. *)
Definition fs_link (fs : FS) (src dst : string) : Errno + FS :=
  match lookup_node fs src with
  | None => inl ENOENT
  | Some Subdir => inl EPERM
  | Some (File i) =>
      match dirs fs !! parent dst with
      | None => inl ENOENT
      | Some m =>
          if reserved_name (basename dst) || bool_decide (is_Some (m !! basename dst))
          then inl EEXIST
          else inr (mkFS (<[parent dst := <[basename dst := File i]> m]> (dirs fs))
                         (inodes fs))
      end
  end.

(** [k] is the directory [p] or lies below it. *)
Definition under (p k : string) : bool :=
  bool_decide (k = p) || String.prefix (p +:+ "/") k.

(** [shutil.rmtree]: the path must be a directory; it goes away with
    everything below it, and so does its entry in its parent. *)
Definition fs_rmtree (fs : FS) (p : string) : Errno + FS :=
  match dirs fs !! p with
  | None => inl (if lookup_node fs p is Some _ then ENOTDIR else ENOENT)
  | Some _ =>
      inr (mkFS (filter (λ kv, under p kv.1 = false)
                        (alter (delete (basename p)) (parent p) (dirs fs)))
                (inodes fs))
  end.

(** ** Calls, exceptions, worlds *)

(** The calls the task makes to the outside, with their arguments. *)
Inductive Call :=
  | Mkdir (p : string)
  | Link (src dst : string)
  | Popen (cmd : list string)
  | SendEvent (name : string) (data : option string)
  | Sleep (secs : Z)
  | Rmtree (p : string).

Global Instance Call_eq_dec : EqDecision Call.
Proof. solve_decision. Defined.

(** The Python exceptions the task can end with.  An [OSError] carries
    the call that raised it. *)
Inductive Exn :=
  | OSError (c : Call) (e : Errno)
  | TypeError
  | RuntimeError (msg : string).

Global Instance Exn_eq_dec : EqDecision Exn.
Proof. solve_decision. Defined.

Record World := mkWorld {
  fs : FS;
  trace : list Call;   (* calls made so far, oldest first *)
}.

(** How a computation ends: with a value, with an exception, or not at
    all within the number of polls it was given ([Hang]). *)
Inductive Outcome (A : Type) :=
  | Ret (a : A)
  | Raise (e : Exn)
  | Hang.
Arguments Ret {A} a.
Arguments Raise {A} e.
Arguments Hang {A}.

Definition M (A : Type) : Type := World → Outcome A * World.

Definition ret {A} (a : A) : M A := λ w, (Ret a, w).
Definition raise {A} (e : Exn) : M A := λ w, (Raise e, w).
Definition bind {A B} (m : M A) (k : A → M B) : M B :=
  λ w, match m w with
       | (Ret a, w') => k a w'
       | (Raise e, w') => (Raise e, w')
       | (Hang, w') => (Hang, w')
       end.

Notation "x <~ m ;; k" := (bind m (λ x, k))
  (at level 100, m at next level, right associativity).
Notation "m ;;; k" := (bind m (λ _, k))
  (at level 100, right associativity).

(** Record a call in the trace. *)
Definition called (c : Call) : M unit :=
  λ w, (Ret tt, mkWorld (fs w) (trace w ++ [c])).

(** ** The collaborators *)

(** An input file is the dictionary handed over by the pipeline. *)
Abbreviation InputFile := (gmap string string).
Abbreviation Descriptor := (gmap string string).

(** What [create_output_file] returns: the attribute [path] and the
    dictionary [to_dict()] of the library's [OutputFile]. *)
Record OutputFile := mkOutputFile {
  path : string;
  to_dict : Descriptor;
}.

(** The arguments of [task_result], which the library serialises. *)
Record TaskResult := mkTaskResult {
  result_output_files : list Descriptor;
  result_workflow_id : option string;
  result_command : string;
}.

Record Env := mkEnv {
  (* openrelik_worker_common.utils *)
  get_input_files : option string → list InputFile → list InputFile;
  create_output_file : string → string → string → string → OutputFile;
  (* uuid4().hex, as drawn in this invocation *)
  uuid4_hex : string;
  (* a refusal by the operating system that the file-system model does
     not explain: permissions, a full disk, a link across devices, a
     missing executable *)
  os_fault : Call → option Errno;
  (* the external tool, launched with a command line: what the n-th
     [poll()] returns, and what the tool did to the files before it *)
  proc_status : list string → nat → option Z;
  proc_effect : list string → nat → FS → FS;
}.

Record Args := mkArgs {
  pipe_result : option string;
  input_files : option (list InputFile);
  output_path : string;
  workflow_id : option string;
  task_config : gmap string string;
}.

(** ** System calls in the monad *)

Definition syscall (E : Env) (c : Call) (f : FS → Errno + FS) : M unit :=
  called c ;;;
  match os_fault E c with
  | Some e => raise (OSError c e)
  | None => λ w,
      match f (fs w) with
      | inl e => (Raise (OSError c e), w)
      | inr fs' => (Ret tt, mkWorld fs' (trace w))
      end
  end.

Definition os_mkdir (E : Env) (p : string) : M unit :=
  syscall E (Mkdir p) (λ s, fs_mkdir s p).

(** [os.link(src, dst)] where [src] may be [None]. *)
Definition os_link (E : Env) (src : option string) (dst : string) : M unit :=
  match src with
  | Some p => syscall E (Link p dst) (λ s, fs_link s p dst)
  | None => raise TypeError
  end.

Definition shutil_rmtree (E : Env) (p : string) : M unit :=
  syscall E (Rmtree p) (λ s, fs_rmtree s p).

(** [os.path.exists(p)], as an exact reading of the file system: the
    case in which the underlying [stat] fails, and the answer is [False]
    for a path that is there, is not part of this model. *)
Definition os_path_exists (p : string) : M bool :=
  λ w, (Ret (path_exists (fs w) p), w).

(** [os.path.basename(x)] where [x] may be [None]. *)
Definition os_path_basename (x : option string) : M string :=
  match x with
  | Some p => ret (basename p)
  | None => raise TypeError
  end.

(** [subprocess.Popen(command)]: the handle is the command line. *)
Definition subprocess_Popen (E : Env) (cmd : list string) : M (list string) :=
  called (Popen cmd) ;;;
  match os_fault E (Popen cmd) with
  | Some e => raise (OSError (Popen cmd) e)
  | None => ret cmd
  end.

(** The [n]-th [process.poll()]. *)
Definition process_poll (E : Env) (process : list string) (n : nat) : M (option Z) :=
  λ w, (Ret (proc_status E process n),
        mkWorld (proc_effect E process n (fs w)) (trace w)).

(** [self.send_event(name, data=data)], recorded as a call.  The call
    is taken to complete: an exception raised while the event is sent is
    not part of this model. *)
Definition send_event (name : string) (data : option string) : M unit :=
  called (SendEvent name data).

(** [time.sleep(secs)], recorded as a call and taken to complete. *)
Definition time_sleep (secs : Z) : M unit := called (Sleep secs).

(** ** The task *)

Definition INTERVAL_SECONDS : Z := 2.

(** Lines 63-65: the [for] loop over the input files. *)
Fixpoint link_files (E : Env) (temp_dir : string) (files : list InputFile) : M unit :=
  match files with
  | [] => ret tt
  | file :: rest =>
      filename <~ os_path_basename (file !! "path") ;;
      os_link E (file !! "path") (temp_dir +:+ "/" +:+ filename) ;;;
      link_files E temp_dir rest
  end.

(** Lines 62-65: the staging step. *)
Definition stage (E : Env) (temp_dir : string) (files : list InputFile) : M unit :=
  os_mkdir E temp_dir ;;;
  link_files E temp_dir files.

(** Lines 68-82. *)
Definition command (output_file_path temp_dir : string) : list string :=
  [ "/hayabusa/hayabusa";
    "json-timeline";
    "--ISO-8601";
    "--UTC";
    "--no-wizard";
    "--quiet";
    "--JSONL-output";
    "--profile";
    "super-verbose";
    "--output";
    output_file_path;
    "--directory";
    temp_dir ].

(** Lines 87-89: the [while] loop; [n] counts the polls already made and
    [fuel] bounds those still allowed. *)
Fixpoint poll_loop (E : Env) (fuel : nat) (process : list string) (n : nat) : M unit :=
  match fuel with
  | O => λ w, (Hang, w)
  | S fuel' =>
      st <~ process_poll E process n ;;
      match st with
      | None =>
          send_event "task-progress" None ;;;
          time_sleep INTERVAL_SECONDS ;;;
          poll_loop E fuel' process (S n)
      | Some _ => ret tt
      end
  end.

(** Lines 92-93. *)
Definition remove_temp_dir (E : Env) (temp_dir : string) : M unit :=
  ex <~ os_path_exists temp_dir ;;
  if ex then shutil_rmtree E temp_dir else ret tt.

Definition resolved_inputs (E : Env) (a : Args) : list InputFile :=
  get_input_files E (pipe_result a) (default [] (input_files a)).

Definition output_file_of (E : Env) (a : Args) : OutputFile :=
  create_output_file E (output_path a)
    "Hayabusa_JSONL_timeline" "jsonl" "openrelik:worker:hayabusa:file:jsonl".

Definition temp_dir_of (E : Env) (a : Args) : string :=
  os_path_join (output_path a) (uuid4_hex E).

Definition command_of (E : Env) (a : Args) : list string :=
  command (path (output_file_of E a)) (temp_dir_of E a).

Definition json_timeline (E : Env) (fuel : nat) (a : Args) : M TaskResult :=
  let input_files := resolved_inputs E a in
  let output_files : list Descriptor := [] in
  let output_file := output_file_of E a in
  let temp_dir := temp_dir_of E a in
  stage E temp_dir input_files ;;;
  let command := command (path output_file) temp_dir in
  process <~ subprocess_Popen E command ;;
  poll_loop E fuel process 0 ;;;
  remove_temp_dir E temp_dir ;;;
  let output_files := output_files ++ [to_dict output_file] in
  if bool_decide (output_files = [])
  then raise (RuntimeError "Hayabusa didn't create any output files")
  else ret (mkTaskResult output_files (workflow_id a) (join " " command)).

(** ** Vocabulary of the specification *)

(** The base filenames of the inputs, in order. *)
Definition base_filenames (files : list InputFile) : list string :=
  omap (λ f : InputFile, basename <$> f !! "path") files.

(** The [os.link] calls the loop makes when none of them fails. *)
Fixpoint link_calls (temp_dir : string) (files : list InputFile) : list Call :=
  match files with
  | [] => []
  | file :: rest =>
      match file !! "path" with
      | Some p => Link p (temp_dir +:+ "/" +:+ basename p) :: link_calls temp_dir rest
      | None => []
      end
  end.

(** All calls of the staging step, each once, in order. *)
Definition staging_calls (temp_dir : string) (files : list InputFile) : list Call :=
  Mkdir temp_dir :: link_calls temp_dir files.

(** [n] heartbeats: an event without payload, then a pause of the
    polling interval. *)
Fixpoint heartbeats (n : nat) : list Call :=
  match n with
  | O => []
  | S k => SendEvent "task-progress" None :: Sleep 2 :: heartbeats k
  end.

Definition is_SendEvent (c : Call) : bool :=
  if c is SendEvent _ _ then true else false.

(** The file system as the [k+1] polls numbered [n], ..., [n+k] saw it
    last. *)
Fixpoint polled_fs (E : Env) (process : list string) (n k : nat) (s : FS) : FS :=
  match k with
  | O => proc_effect E process n s
  | S k' => polled_fs E process (S n) k' (proc_effect E process n s)
  end.

(** The specification's [StagingError]: what the staging step raises,
    an [OSError] of [os.mkdir] or [os.link], or the [TypeError] of an
    input without a path. *)
Definition StagingError (e : Exn) : Prop :=
  match e with
  | OSError (Mkdir _) _ | OSError (Link _ _) _ | TypeError => True
  | _ => False
  end.

(** The output artifact is absent or has no bytes. *)
Definition output_missing (s : FS) (p : string) : Prop :=
  file_content s p = None ∨ file_content s p = Some "".

(** Two environments that differ at most in the exit status the
    process reports once it has terminated. *)
Definition same_but_exit_status (E1 E2 : Env) : Prop :=
  (∀ p l, get_input_files E1 p l = get_input_files E2 p l) ∧
  (∀ o f x d, create_output_file E1 o f x d = create_output_file E2 o f x d) ∧
  uuid4_hex E1 = uuid4_hex E2 ∧
  (∀ c, os_fault E1 c = os_fault E2 c) ∧
  (∀ cmd n s, proc_effect E1 cmd n s = proc_effect E2 cmd n s) ∧
  (∀ cmd n, is_Some (proc_status E1 cmd n) ↔ is_Some (proc_status E2 cmd n)).

(** The calls a run can make. *)
Definition task_call (E : Env) (a : Args) (c : Call) : Prop :=
  c ∈ staging_calls (temp_dir_of E a) (resolved_inputs E a) ∨
  c = Popen (command_of E a) ∨
  c = SendEvent "task-progress" None ∨
  c = Sleep 2 ∨
  c = Rmtree (temp_dir_of E a).

(** A source that can be linked under a fresh name in the staging
    directory. *)
Definition linkable (E : Env) (tmp : string) (s : FS) (file : InputFile) : Prop :=
  ∃ p i, file !! "path" = Some p ∧
         lookup_node s p = Some (File i) ∧
         reserved_name (basename p) = false ∧
         os_fault E (Link p (tmp +:+ "/" +:+ basename p)) = None.

(** [q] names neither the staging directory [tmp] itself nor an entry
    directly inside it. *)
Definition outside (tmp q : string) : Prop :=
  parent q ≠ tmp ∧ (parent q ≠ parent tmp ∨ basename q ≠ basename tmp).

(** What one call of the task may be, given the staging directory, the
    inputs and the command line. *)
Definition expected_call (tmp : string) (files : list InputFile) (cmd : list string)
    (c : Call) : Prop :=
  match c with
  | Mkdir p => p = tmp
  | Link src dst =>
      (∃ f, f ∈ files ∧ f !! "path" = Some src) ∧
      dst = tmp +:+ "/" +:+ basename src ∧ parent dst = tmp
  | Popen c' => c' = cmd
  | SendEvent name data => name = "task-progress" ∧ data = None
  | Sleep secs => secs = 2%Z
  | Rmtree p => p = tmp
  end.

(** ** Concrete invocations

    A small file system with three event logs, and environments in which
    the tool writes its timeline, writes nothing, or cannot be launched. *)
Module Ex.

Definition evidence : gmap string Node :=
  {[ "a.evtx" := File 1; "b.evtx" := File 2; "c.evtx" := File 3 ]}.

Definition fs0 : FS :=
  mkFS {[ "" := {[ "evidence" := Subdir; "out" := Subdir ]};
          "/evidence" := evidence;
          "/out" := ∅ ]}
       {[ 1%nat := "alpha"; 2%nat := "beta"; 3%nat := "gamma" ]}.

Definition w0 : World := mkWorld fs0 [].

Definition input (p : string) : InputFile :=
  {[ "path" := p; "display_name" := basename p ]}.

Definition three_logs : list InputFile :=
  [ input "/evidence/a.evtx"; input "/evidence/b.evtx"; input "/evidence/c.evtx" ].

(** Two inputs with the same base filename. *)
Definition same_name : list InputFile :=
  [ input "/evidence/a.evtx"; input "/evidence/a.evtx" ].

Definition args (files : list InputFile) : Args :=
  mkArgs None (Some files) "/out" (Some "workflow-7") ∅.

(** The tool writes [data] at [p] (a new inode). *)
Definition tool_writes (p data : string) (s : FS) : FS :=
  match dirs s !! parent p with
  | Some m =>
      mkFS (<[parent p := <[basename p := File 100]> m]> (dirs s))
           (<[100%nat := data]> (inodes s))
  | None => s
  end.

Definition new_output_file (out filename ext data_type : string) : OutputFile :=
  let p := os_path_join out ("5eed." +:+ ext) in
  mkOutputFile p
    {[ "display_name" := filename +:+ "." +:+ ext;
       "data_type" := data_type;
       "path" := p ]}.

(** The tool is seen alive by two polls, writes [data] as its timeline
    and exits with [rc]. *)
Definition env_tool (data : string) (rc : Z) : Env :=
  mkEnv (λ _ l, l) new_output_file "c0ffee" (λ _, None)
        (λ _ n, if decide (n < 2) then None else Some rc)
        (λ _ n s, if decide (n = 2) then tool_writes "/out/5eed.jsonl" data s else s).

Definition env_ok : Env := env_tool "{}" 0.

(** The tool exits at once and writes nothing. *)
Definition env_silent : Env :=
  mkEnv (λ _ l, l) new_output_file "c0ffee" (λ _, None)
        (λ _ _, Some 1%Z) (λ _ _ s, s).

(** The executable cannot be started. *)
Definition env_no_launch : Env :=
  mkEnv (λ _ l, l) new_output_file "c0ffee"
        (λ c, if c is Popen _ then Some ENOENT else None)
        (λ _ _, Some 0%Z) (λ _ _ s, s).

(** The tool is alive at every poll. *)
Definition env_forever : Env :=
  mkEnv (λ _ l, l) new_output_file "c0ffee" (λ _, None)
        (λ _ _, None) (λ _ _ s, s).

(** The tool removes the staging directory itself before it exits, and
    the operating system would refuse the task's own removal. *)
Definition env_tool_cleans : Env :=
  mkEnv (λ _ l, l) new_output_file "c0ffee"
        (λ c, if c is Rmtree _ then Some EACCES else None)
        (λ _ _, Some 0%Z)
        (λ _ _ s, if fs_rmtree s "/out/c0ffee" is inr s' then s' else s).

(** The same invocation with another identifier drawn. *)
Definition env_other_uuid : Env :=
  mkEnv (λ _ l, l) new_output_file "decaf" (λ _, None)
        (λ _ _, Some 0%Z) (λ _ _ s, s).

(** The second link is refused. *)
Definition env_link_refused : Env :=
  mkEnv (λ _ l, l) new_output_file "c0ffee"
        (λ c, if decide (c = Link "/evidence/b.evtx" "/out/c0ffee/b.evtx")
              then Some EXDEV else None)
        (λ _ _, Some 0%Z) (λ _ _ s, s).

(** An input dictionary without a ["path"] key, after one with. *)
Definition path_missing : list InputFile :=
  [ input "/evidence/a.evtx"; {[ "display_name" := "b.evtx" ]}; input "/evidence/c.evtx" ].

End Ex.

(** ** Facts about paths *)

Lemma rsplit_no_slash (n : string) :
  no_slash n = true → rsplit n = (None, n).
Proof.
  induction n as [|c r IH]; simpl; [done|].
  destruct (decide (c = slash)); [done|].
  intros Hr. by rewrite (IH Hr).
Qed.

Lemma basename_no_slash (p : string) : no_slash (basename p) = true.
Proof.
  unfold basename. induction p as [|c r IH]; simpl; [done|].
  destruct (rsplit r) as [[d|] n]; simpl in *; [done|].
  destruct (decide (c = slash)); simpl; [done|].
  by destruct (decide (c = slash)).
Qed.

Lemma rsplit_child (d n : string) :
  no_slash n = true → rsplit (d +:+ "/" +:+ n) = (Some d, n).
Proof.
  intros Hn. induction d as [|c r IH].
  - change (rsplit (String slash n) = (Some "", n)).
    simpl. by rewrite (rsplit_no_slash n Hn).
  - change (rsplit (String c (r +:+ "/" +:+ n)) = (Some (String c r), n)).
    simpl. by rewrite IH.
Qed.

Lemma parent_child (d n : string) :
  no_slash n = true → parent (d +:+ "/" +:+ n) = d.
Proof. intros Hn. unfold parent. by rewrite rsplit_child. Qed.

Lemma basename_child (d n : string) :
  no_slash n = true → basename (d +:+ "/" +:+ n) = n.
Proof. intros Hn. unfold basename. by rewrite rsplit_child. Qed.

(** ** Facts about the file system *)

Lemma fs_rmtree_gone (s s' : FS) (p : string) :
  fs_rmtree s p = inr s' → path_exists s' p = false.
Proof.
  unfold fs_rmtree. destruct (dirs s !! p) as [m|] eqn:Hp; [|done].
  intros [= <-]. unfold path_exists, is_dir, lookup_node; simpl.
  apply orb_false_iff; split; apply bool_decide_eq_false.
  - intros [x Hx]. apply map_lookup_filter_Some in Hx as [_ Hx]. simpl in Hx.
    unfold under in Hx. by rewrite bool_decide_eq_true_2 in Hx.
  - intros [x Hx].
    destruct (filter _ _ !! parent p) as [m'|] eqn:Hm'; simpl in Hx; [|done].
    apply map_lookup_filter_Some in Hm' as [Hm' _].
    rewrite lookup_alter_eq in Hm'.
    destruct (dirs s !! parent p) as [m0|]; simpl in Hm'; [|done].
    injection Hm' as <-. by rewrite lookup_delete_eq in Hx.
Qed.

Lemma fs_mkdir_empty (s s' : FS) (p : string) :
  fs_mkdir s p = inr s' → dirs s' !! p = Some ∅ ∧ inodes s' = inodes s.
Proof.
  unfold fs_mkdir. destruct (_ || _); [done|].
  destruct (dirs s !! parent p); [|done].
  intros [= <-]; simpl. by rewrite lookup_insert_eq.
Qed.

(** A link that succeeds adds one entry for the source's inode and
    changes nothing else. *)
Lemma fs_link_inv (s s' : FS) (src dst : string) :
  fs_link s src dst = inr s' →
  ∃ i m, lookup_node s src = Some (File i) ∧
         dirs s !! parent dst = Some m ∧
         m !! basename dst = None ∧
         s' = mkFS (<[parent dst := <[basename dst := File i]> m]> (dirs s)) (inodes s).
Proof.
  unfold fs_link. destruct (lookup_node s src) as [[i|]|]; [|done..].
  destruct (dirs s !! parent dst) as [m|]; [|done].
  destruct (reserved_name _); simpl; [done|].
  case_bool_decide as Hfree; [done|].
  intros [= <-]. exists i, m. repeat split.
  by apply eq_None_not_Some.
Qed.

Lemma lookup_node_link (s : FS) (d n : string) (m : gmap string Node) (x y : Node) (q : string) :
  dirs s !! d = Some m → m !! n = None →
  lookup_node s q = Some y →
  lookup_node (mkFS (<[d := <[n := x]> m]> (dirs s)) (inodes s)) q = Some y.
Proof.
  intros Hd Hn. unfold lookup_node; simpl.
  destruct (decide (d = parent q)) as [->|Hne].
  - rewrite Hd, lookup_insert_eq; simpl. intros Hq.
    rewrite lookup_insert_ne; [done|]. intros ->. congruence.
  - by rewrite lookup_insert_ne.
Qed.

(** ** Running the monad *)

Lemma bind_Ret {A B} (m : M A) (k : A → M B) (w w1 : World) (a : A) :
  m w = (Ret a, w1) → bind m k w = k a w1.
Proof. unfold bind. by intros ->. Qed.

Lemma bind_Ret_inv {A B} (m : M A) (k : A → M B) (w w' : World) (b : B) :
  bind m k w = (Ret b, w') → ∃ a w1, m w = (Ret a, w1) ∧ k a w1 = (Ret b, w').
Proof.
  unfold bind. destruct (m w) as [[a|e|] w1]; [|done..]. intros H. by exists a, w1.
Qed.

(** A system call records itself, then fails or changes the files. *)
Lemma syscall_run (E : Env) (c : Call) (f : FS → Errno + FS) (w : World) :
  syscall E c f w =
  match os_fault E c with
  | Some e => (Raise (OSError c e), mkWorld (fs w) (trace w ++ [c]))
  | None =>
      match f (fs w) with
      | inl e => (Raise (OSError c e), mkWorld (fs w) (trace w ++ [c]))
      | inr s' => (Ret tt, mkWorld s' (trace w ++ [c]))
      end
  end.
Proof. unfold syscall, bind, called, raise. by destruct (os_fault E c). Qed.

Lemma syscall_Ret_inv (E : Env) (c : Call) (f : FS → Errno + FS) (w w' : World) (u : unit) :
  syscall E c f w = (Ret u, w') →
  ∃ s', os_fault E c = None ∧ f (fs w) = inr s' ∧ w' = mkWorld s' (trace w ++ [c]).
Proof.
  rewrite syscall_run. destruct (os_fault E c); [done|].
  destruct (f (fs w)) as [e|s']; [done|]. intros [= <-]. by exists s'.
Qed.

Lemma syscall_outcome (E : Env) (c : Call) (f : FS → Errno + FS) (w : World) :
  trace (syscall E c f w).2 = trace w ++ [c] ∧
  match (syscall E c f w).1 with
  | Ret _ => True
  | Raise e => ∃ en, e = OSError c en ∧ fs (syscall E c f w).2 = fs w
  | Hang => False
  end.
Proof.
  rewrite syscall_run. destruct (os_fault E c) as [en|]; simpl; [eauto|].
  destruct (f (fs w)) as [en|s']; simpl; eauto.
Qed.

(** ** The staging step *)

Lemma link_files_cons (E : Env) (tmp : string) (file : InputFile) (rest : list InputFile) (w : World) :
  link_files E tmp (file :: rest) w =
  match file !! "path" with
  | None => (Raise TypeError, w)
  | Some p =>
      match syscall E (Link p (tmp +:+ "/" +:+ basename p))
                    (λ s, fs_link s p (tmp +:+ "/" +:+ basename p)) w with
      | (Ret _, w1) => link_files E tmp rest w1
      | (Raise e, w1) => (Raise e, w1)
      | (Hang, w1) => (Hang, w1)
      end
  end.
Proof. simpl. by destruct (file !! "path"). Qed.

(** The loop makes its planned calls in order, each at most once, and
    stops at the first that fails. *)
Lemma link_files_outcome (E : Env) (tmp : string) (files : list InputFile) (w : World) :
  (∃ j, trace (link_files E tmp files w).2 = trace w ++ take j (link_calls tmp files)) ∧
  match (link_files E tmp files w).1 with
  | Ret _ => True
  | Raise e =>
      StagingError e ∧
      ∀ c en, e = OSError c en → last (trace (link_files E tmp files w).2) = Some c
  | Hang => False
  end.
Proof.
  revert w. induction files as [|file rest IH]; intros w.
  - split; [|done]. exists 0. simpl. by rewrite app_nil_r.
  - rewrite link_files_cons. simpl link_calls.
    destruct (file !! "path") as [p|]; simpl.
    + set (c := Link p (tmp +:+ "/" +:+ basename p)).
      set (f := λ s : FS, fs_link s p (tmp +:+ "/" +:+ basename p)).
      destruct (syscall_outcome E c f w) as [Ht Ho].
      destruct (syscall E c f w) as [[u|e|] w1]; simpl in *.
      * destruct (IH w1) as [[j Hj] Hout]. split; [|done].
        exists (S j). rewrite Hj, Ht. simpl. by rewrite <- app_assoc.
      * split; [exists 1; by rewrite Ht|]. destruct Ho as (en & -> & _).
        split; [done|]. intros ? ? [= <- <-]. by rewrite Ht, last_snoc.
      * done.
    + split; [|done]. exists 0. simpl. by rewrite app_nil_r.
Qed.

Lemma stage_outcome (E : Env) (tmp : string) (files : list InputFile) (w : World) :
  (∃ j, trace (stage E tmp files w).2 = trace w ++ take j (staging_calls tmp files)) ∧
  match (stage E tmp files w).1 with
  | Ret _ => True
  | Raise e =>
      StagingError e ∧
      ∀ c en, e = OSError c en → last (trace (stage E tmp files w).2) = Some c
  | Hang => False
  end.
Proof.
  unfold stage, os_mkdir, bind.
  set (f := λ s : FS, fs_mkdir s tmp).
  destruct (syscall_outcome E (Mkdir tmp) f w) as [Ht Ho].
  destruct (syscall E (Mkdir tmp) f w) as [[u|e|] w1]; simpl in *.
  - destruct (link_files_outcome E tmp files w1) as [[j Hj] Hout]. split; [|done].
    exists (S j). rewrite Hj, Ht. simpl. by rewrite <- app_assoc.
  - split; [exists 1; by rewrite Ht|]. destruct Ho as (en & -> & _).
    split; [done|]. intros ? ? [= <- <-]. by rewrite Ht, last_snoc.
  - done.
Qed.

(** What a loop that completes has done to the staging directory. *)
Lemma link_files_Ret (E : Env) (tmp : string) (files : list InputFile) :
  ∀ (w w' : World) (m : gmap string Node),
  link_files E tmp files w = (Ret tt, w') →
  dirs (fs w) !! tmp = Some m →
  ∃ m', dirs (fs w') !! tmp = Some m' ∧
        inodes (fs w') = inodes (fs w) ∧
        trace w' = trace w ++ link_calls tmp files ∧
        dom m' = dom m ∪ list_to_set (base_filenames files) ∧
        size m' = size m + List.length files ∧
        NoDup (base_filenames files) ∧
        (∀ n, n ∈ base_filenames files → m !! n = None) ∧
        (∀ n x, m !! n = Some x → m' !! n = Some x) ∧
        (∀ q y, lookup_node (fs w) q = Some y → lookup_node (fs w') q = Some y) ∧
        Forall (λ f : InputFile, ∃ p i,
                  f !! "path" = Some p ∧
                  m' !! basename p = Some (File i) ∧
                  lookup_node (fs w') p = Some (File i)) files.
Proof.
  induction files as [|file rest IH]; intros w w' m Hrun Hm.
  - injection Hrun as <-. exists m. rewrite app_nil_r. simpl.
    split_and!; try done; [|constructor|by intros n ?%elem_of_nil].
    unfold base_filenames; simpl. by rewrite (right_id_L ∅ (∪)).
  - rewrite link_files_cons in Hrun.
    destruct (file !! "path") as [p|] eqn:Hp; [|done].
    set (dst := tmp +:+ "/" +:+ basename p) in *.
    destruct (syscall E (Link p dst) _ w) as [[[]|e|] w1] eqn:Hsys; [|done..].
    apply syscall_Ret_inv in Hsys as (s1 & _ & Hlink & ->).
    apply fs_link_inv in Hlink as (i & m0 & Hsrc & Hd & Hfree & ->).
    assert (Hpar : parent dst = tmp) by apply parent_child, basename_no_slash.
    assert (Hbase : basename dst = basename p) by apply basename_child, basename_no_slash.
    rewrite Hpar, Hbase in *. rewrite Hm in Hd. injection Hd as <-.
    destruct (IH _ w' (<[basename p := File i]> m) Hrun) as
      (m' & Hm' & Hino & Htr & Hdom & Hsize & Hnd & Hfresh & Hkeep & Hnodes & Hall).
    { simpl. by rewrite lookup_insert_eq. }
    assert (Hnames : base_filenames (file :: rest) = basename p :: base_filenames rest).
    { unfold base_filenames; simpl. by rewrite Hp. }
    exists m'. simpl in *. split_and!; try done.
    + rewrite Htr. simpl. rewrite Hp. by rewrite <- app_assoc.
    + rewrite Hdom, dom_insert_L, Hnames. simpl.
      by rewrite (comm_L (∪) {[basename p]} (dom m)), (assoc_L (∪)).
    + rewrite Hsize, map_size_insert_None by done. lia.
    + rewrite Hnames. constructor; [|done]. intros Hin.
      apply Hfresh in Hin. by rewrite lookup_insert_eq in Hin.
    + rewrite Hnames. intros n [->|Hin]%elem_of_cons; [done|].
      apply Hfresh in Hin. by apply lookup_insert_None in Hin as [? _].
    + intros n x Hn. apply Hkeep. rewrite lookup_insert_ne; [done|]. congruence.
    + intros q y Hq. apply Hnodes. by apply lookup_node_link.
    + constructor; [|done]. exists p, i. split_and!; [done| |].
      * apply Hkeep. by rewrite lookup_insert_eq.
      * apply Hnodes. by apply lookup_node_link.
Qed.

(** ** Launch, polling, removal *)

Lemma subprocess_Popen_run (E : Env) (cmd : list string) (w : World) :
  subprocess_Popen E cmd w =
  match os_fault E (Popen cmd) with
  | Some e => (Raise (OSError (Popen cmd) e), mkWorld (fs w) (trace w ++ [Popen cmd]))
  | None => (Ret cmd, mkWorld (fs w) (trace w ++ [Popen cmd]))
  end.
Proof.
  unfold subprocess_Popen, bind, called, raise, ret.
  by destruct (os_fault E (Popen cmd)).
Qed.

Lemma poll_loop_step (E : Env) (fuel : nat) (cmd : list string) (n : nat) (w : World) :
  poll_loop E (S fuel) cmd n w =
  match proc_status E cmd n with
  | Some _ => (Ret tt, mkWorld (proc_effect E cmd n (fs w)) (trace w))
  | None =>
      poll_loop E fuel cmd (S n)
        (mkWorld (proc_effect E cmd n (fs w))
                 (trace w ++ [SendEvent "task-progress" None; Sleep 2]))
  end.
Proof.
  simpl. unfold bind, process_poll, send_event, time_sleep, called, ret; simpl.
  destruct (proc_status E cmd n); [done|]. by rewrite <- app_assoc.
Qed.

(** The loop, given polls enough, ends at the first poll that finds the
    process terminated, after one heartbeat per earlier poll. *)
Lemma poll_loop_exits (E : Env) (cmd : list string) :
  ∀ (k fuel n : nat) (w : World),
  (∀ j, j < k → proc_status E cmd (n + j) = None) →
  is_Some (proc_status E cmd (n + k)) →
  k < fuel →
  poll_loop E fuel cmd n w =
  (Ret tt, mkWorld (polled_fs E cmd n k (fs w)) (trace w ++ heartbeats k)).
Proof.
  induction k as [|k IH]; intros fuel n w Halive Hdone Hfuel;
    (destruct fuel as [|fuel]; [lia|]); rewrite poll_loop_step.
  - rewrite Nat.add_0_r in Hdone. destruct Hdone as [rc ->].
    simpl. by rewrite app_nil_r.
  - rewrite <- (Nat.add_0_r n) at 1. rewrite (Halive 0) by lia.
    rewrite (IH fuel (S n)); [| |by rewrite Nat.add_succ_comm|lia].
    + simpl. by rewrite <- app_assoc.
    + intros j Hj. rewrite Nat.add_succ_comm. apply Halive. lia.
Qed.

(** Whatever the process does, the loop never raises, and its calls are
    heartbeats, one per poll that found the process alive. *)
Lemma poll_loop_outcome (E : Env) (cmd : list string) :
  ∀ (fuel n : nat) (w : World),
  ∃ k, k ≤ fuel ∧
       trace (poll_loop E fuel cmd n w).2 = trace w ++ heartbeats k ∧
       (∀ j, j < k → proc_status E cmd (n + j) = None) ∧
       match (poll_loop E fuel cmd n w).1 with
       | Ret _ => is_Some (proc_status E cmd (n + k))
       | Raise _ => False
       | Hang => k = fuel
       end.
Proof.
  induction fuel as [|fuel IH]; intros n w.
  - exists 0. simpl. rewrite app_nil_r. split_and!; [done..|lia|done].
  - rewrite poll_loop_step. destruct (proc_status E cmd n) as [rc|] eqn:Hst.
    + exists 0. simpl. rewrite app_nil_r, Nat.add_0_r, Hst.
      split_and!; [lia|done|lia|done].
    + destruct (IH (S n) (mkWorld (proc_effect E cmd n (fs w))
                   (trace w ++ [SendEvent "task-progress" None; Sleep 2])))
        as (k & Hk & Htr & Halive & Hout).
      exists (S k). split_and!; [lia| | |].
      * rewrite Htr. simpl. by rewrite <- app_assoc.
      * intros [|j] Hj; [by rewrite Nat.add_0_r|].
        rewrite <- Nat.add_succ_comm. apply Halive. lia.
      * rewrite <- Nat.add_succ_comm.
        destruct (poll_loop E fuel cmd (S n) _).1; [done..|lia].
Qed.

Lemma remove_temp_dir_run (E : Env) (tmp : string) (w : World) :
  remove_temp_dir E tmp w =
  if path_exists (fs w) tmp
  then syscall E (Rmtree tmp) (λ s, fs_rmtree s tmp) w
  else (Ret tt, w).
Proof.
  unfold remove_temp_dir, bind, os_path_exists, shutil_rmtree.
  by destruct (path_exists (fs w) tmp).
Qed.

(** When the removal step returns, the directory is gone. *)
Lemma remove_temp_dir_Ret (E : Env) (tmp : string) (w w' : World) (u : unit) :
  remove_temp_dir E tmp w = (Ret u, w') →
  path_exists (fs w') tmp = false ∧
  trace w' = trace w ++ (if path_exists (fs w) tmp then [Rmtree tmp] else []).
Proof.
  rewrite remove_temp_dir_run. destruct (path_exists (fs w) tmp) eqn:Hex.
  - intros Hsys. apply syscall_Ret_inv in Hsys as (s' & _ & Hrm & ->).
    split; [|done]. by apply fs_rmtree_gone in Hrm.
  - intros [=]; subst. split; [done|]. by rewrite app_nil_r.
Qed.

Lemma remove_temp_dir_outcome (E : Env) (tmp : string) (w : World) :
  match (remove_temp_dir E tmp w).1 with
  | Ret _ => True
  | Raise e => ∃ en, e = OSError (Rmtree tmp) en
  | Hang => False
  end.
Proof.
  rewrite remove_temp_dir_run. destruct (path_exists (fs w) tmp); [|done].
  pose proof (syscall_outcome E (Rmtree tmp) (λ s, fs_rmtree s tmp) w) as [_ Ho].
  destruct (syscall E _ _ w).1; [done| |done]. destruct Ho as (en & -> & _). eauto.
Qed.

(** ** The task, stage by stage *)

Lemma json_timeline_run (E : Env) (fuel : nat) (a : Args) (w : World) :
  json_timeline E fuel a w =
  match stage E (temp_dir_of E a) (resolved_inputs E a) w with
  | (Ret _, w1) =>
      match subprocess_Popen E (command_of E a) w1 with
      | (Ret process, w2) =>
          match poll_loop E fuel process 0 w2 with
          | (Ret _, w3) =>
              match remove_temp_dir E (temp_dir_of E a) w3 with
              | (Ret _, w4) =>
                  (Ret (mkTaskResult [to_dict (output_file_of E a)] (workflow_id a)
                                     (join " " (command_of E a))), w4)
              | (Raise e, w4) => (Raise e, w4)
              | (Hang, w4) => (Hang, w4)
              end
          | (Raise e, w3) => (Raise e, w3)
          | (Hang, w3) => (Hang, w3)
          end
      | (Raise e, w2) => (Raise e, w2)
      | (Hang, w2) => (Hang, w2)
      end
  | (Raise e, w1) => (Raise e, w1)
  | (Hang, w1) => (Hang, w1)
  end.
Proof.
  unfold json_timeline, bind, command_of.
  destruct (stage E _ _ w) as [[?|?|] w1]; [|done..].
  destruct (subprocess_Popen E _ w1) as [[process|?|] w2]; [|done..].
  destruct (poll_loop E fuel process 0 w2) as [[?|?|] w3]; [|done..].
  by destruct (remove_temp_dir E _ w3) as [[?|?|] w4].
Qed.

Lemma stage_Ret (E : Env) (tmp : string) (files : list InputFile) (w w' : World) :
  stage E tmp files w = (Ret tt, w') →
  ∃ m', dirs (fs w') !! tmp = Some m' ∧
        inodes (fs w') = inodes (fs w) ∧
        trace w' = trace w ++ staging_calls tmp files ∧
        dom m' = list_to_set (base_filenames files) ∧
        size m' = List.length files ∧
        NoDup (base_filenames files) ∧
        Forall (λ f : InputFile, ∃ p i,
                  f !! "path" = Some p ∧
                  m' !! basename p = Some (File i) ∧
                  lookup_node (fs w') p = Some (File i)) files.
Proof.
  unfold stage. intros Hrun.
  apply bind_Ret_inv in Hrun as ([] & w1 & Hmk & Hrun).
  apply syscall_Ret_inv in Hmk as (s1 & _ & Hmk & ->).
  apply fs_mkdir_empty in Hmk as [Hempty Hino].
  destruct (link_files_Ret E tmp files _ w' ∅ Hrun Hempty)
    as (m' & Hm' & Hino' & Htr & Hdom & Hsize & Hnd & _ & _ & _ & Hall).
  exists m'. simpl in *. split_and!; try done.
  - congruence.
  - rewrite Htr. by rewrite <- app_assoc.
  - rewrite Hdom, dom_empty_L. by rewrite (left_id_L ∅ (∪)).
Qed.

Lemma remove_temp_dir_trace (E : Env) (tmp : string) (w : World) :
  trace (remove_temp_dir E tmp w).2 =
  trace w ++ (if path_exists (fs w) tmp then [Rmtree tmp] else []).
Proof.
  rewrite remove_temp_dir_run. destruct (path_exists (fs w) tmp).
  - apply syscall_outcome.
  - simpl. by rewrite app_nil_r.
Qed.

Lemma heartbeats_calls (k : nat) (c : Call) :
  c ∈ heartbeats k → c = SendEvent "task-progress" None ∨ c = Sleep 2.
Proof.
  induction k as [|k IH]; simpl; [by intros ?%elem_of_nil|].
  intros [->|[->|Hin]%elem_of_cons]%elem_of_cons; auto.
Qed.

(** A run only adds calls to the trace, and only calls of the task. *)
Lemma json_timeline_calls (E : Env) (fuel : nat) (a : Args) (w : World) :
  ∃ new, trace (json_timeline E fuel a w).2 = trace w ++ new ∧
         Forall (task_call E a) new.
Proof.
  rewrite json_timeline_run.
  set (tmp := temp_dir_of E a). set (files := resolved_inputs E a).
  destruct (stage_outcome E tmp files w) as [[j Hj] _].
  assert (Hst : Forall (task_call E a) (take j (staging_calls tmp files))).
  { apply Forall_forall. intros c Hc. left. eapply elem_of_sublist; [done|apply sublist_take]. }
  destruct (stage E tmp files w) as [[[]|e|] w1]; simpl in Hj; [|by eauto..].
  rewrite subprocess_Popen_run.
  assert (Hpo : task_call E a (Popen (command_of E a))) by (right; by left).
  destruct (os_fault E (Popen (command_of E a))); simpl.
  { eexists. split; [by rewrite Hj, <- app_assoc|].
    apply Forall_app_2; [done|]. by apply Forall_singleton. }
  set (w2 := mkWorld _ _).
  assert (Hw2 : trace w2 = trace w ++ take j (staging_calls tmp files)
                             ++ [Popen (command_of E a)]).
  { subst w2; simpl. by rewrite Hj, <- app_assoc. }
  destruct (poll_loop_outcome E (command_of E a) fuel 0 w2) as (k & _ & Hk & _).
  assert (Hhb : Forall (task_call E a) (heartbeats k)).
  { apply Forall_forall. intros c Hc. apply heartbeats_calls in Hc.
    unfold task_call. destruct Hc; auto. }
  rewrite Hw2, <- !app_assoc in Hk.
  destruct (poll_loop E fuel (command_of E a) 0 w2) as [[[]|e|] w3]; simpl in Hk.
  2,3: eexists; split; [exact Hk|]; by repeat first [apply Forall_app_2|apply Forall_cons_2|done].
  pose proof (remove_temp_dir_trace E tmp w3) as Hrm.
  assert (Hcl : Forall (task_call E a) (if path_exists (fs w3) tmp then [Rmtree tmp] else [])).
  { destruct (path_exists (fs w3) tmp); [apply Forall_singleton|constructor].
    unfold task_call; auto 6. }
  rewrite Hk, <- !app_assoc in Hrm.
  destruct (remove_temp_dir E tmp w3) as [[[]|e|] w4]; simpl in Hrm;
    (eexists; split; [exact Hrm|]; by repeat first [apply Forall_app_2|apply Forall_cons_2|done]).
Qed.

Lemma staging_calls_no_Popen (tmp : string) (files : list InputFile) (c : list string) :
  Popen c ∉ staging_calls tmp files.
Proof.
  unfold staging_calls. apply not_elem_of_cons. split; [done|].
  induction files as [|file rest IH]; simpl; [apply not_elem_of_nil|].
  destruct (file !! "path"); [|apply not_elem_of_nil].
  by apply not_elem_of_cons.
Qed.

Lemma task_call_Popen (E : Env) (a : Args) (c : list string) :
  task_call E a (Popen c) → c = command_of E a.
Proof.
  intros [Hin|[Heq|[?|[?|?]]]]; try done.
  - by apply staging_calls_no_Popen in Hin.
  - by injection Heq.
Qed.

(** A run that returns went through every stage. *)
Lemma json_timeline_Ret_inv (E : Env) (fuel : nat) (a : Args) (w w' : World) (r : TaskResult) :
  json_timeline E fuel a w = (Ret r, w') →
  ∃ w1 w3,
    stage E (temp_dir_of E a) (resolved_inputs E a) w = (Ret tt, w1) ∧
    os_fault E (Popen (command_of E a)) = None ∧
    poll_loop E fuel (command_of E a) 0
      (mkWorld (fs w1) (trace w1 ++ [Popen (command_of E a)])) = (Ret tt, w3) ∧
    remove_temp_dir E (temp_dir_of E a) w3 = (Ret tt, w') ∧
    r = mkTaskResult [to_dict (output_file_of E a)] (workflow_id a)
                     (join " " (command_of E a)).
Proof.
  rewrite json_timeline_run.
  destruct (stage E _ _ w) as [[[]|?|] w1] eqn:Hst; [|done..].
  rewrite subprocess_Popen_run.
  destruct (os_fault E (Popen (command_of E a))) eqn:Hlaunch; [done|].
  destruct (poll_loop E fuel _ 0 _) as [[[]|?|] w3] eqn:Hpoll; [|done..].
  destruct (remove_temp_dir E _ w3) as [[[]|?|] w4] eqn:Hrm; [|done..].
  intros [= <- <-]. by exists w1, w3.
Qed.

(** ** When staging succeeds *)

Lemma lookup_node_mkdir (s s' : FS) (p q : string) (y : Node) :
  fs_mkdir s p = inr s' →
  lookup_node s q = Some y → lookup_node s' q = Some y.
Proof.
  unfold fs_mkdir. destruct (path_exists s p) eqn:Hex; [done|]. simpl.
  destruct (reserved_name _); [done|].
  destruct (dirs s !! parent p) as [m|] eqn:Hpar; [|done].
  intros [= <-]. apply orb_false_iff in Hex as [Hdir Hnode].
  apply bool_decide_eq_false in Hdir. apply bool_decide_eq_false in Hnode.
  unfold lookup_node in *; simpl. rewrite Hpar in Hnode; simpl in Hnode.
  intros Hq. destruct (decide (p = parent q)) as [->|Hne].
  { destruct (dirs s !! parent q); [by destruct Hdir|done]. }
  rewrite lookup_insert_ne by done.
  destruct (decide (parent p = parent q)) as [Heq|Hne'].
  - rewrite Heq, lookup_insert_eq; simpl. rewrite <- Heq, Hpar in Hq; simpl in Hq.
    rewrite lookup_insert_ne; [done|]. intros Hb. rewrite Hb in Hnode.
    apply Hnode. by rewrite Hq.
  - by rewrite lookup_insert_ne.
Qed.

Lemma link_files_succeeds (E : Env) (tmp : string) (files : list InputFile) :
  ∀ (w : World) (m : gmap string Node),
  dirs (fs w) !! tmp = Some m →
  Forall (linkable E tmp (fs w)) files →
  NoDup (base_filenames files) →
  (∀ n, n ∈ base_filenames files → m !! n = None) →
  ∃ w', link_files E tmp files w = (Ret tt, w').
Proof.
  induction files as [|file rest IH]; intros w m Hm Hall Hnd Hfresh; [by eexists|].
  apply Forall_cons in Hall as [(p & i & Hp & Hsrc & Hres & Hok) Hall].
  assert (Hnames : base_filenames (file :: rest) = basename p :: base_filenames rest).
  { unfold base_filenames; simpl. by rewrite Hp. }
  rewrite Hnames in Hnd, Hfresh. apply NoDup_cons in Hnd as [Hnotin Hnd].
  assert (Hfree : m !! basename p = None) by (apply Hfresh; left).
  rewrite link_files_cons, Hp, syscall_run, Hok.
  unfold fs_link. rewrite Hsrc.
  rewrite parent_child, basename_child by apply basename_no_slash.
  rewrite Hm, Hres, Hfree. simpl.
  eapply (IH _ (<[basename p := File i]> m)); simpl; [by rewrite lookup_insert_eq| |done|].
  - eapply Forall_impl; [exact Hall|]. intros f (p' & i' & ? & Hsrc' & ? & ?).
    exists p', i'. split_and!; try done. by apply lookup_node_link.
  - intros n Hn. rewrite lookup_insert_ne; [apply Hfresh; by right|].
    intros <-. done.
Qed.

(** Staging completes when nothing stands in its way: the directory
    name is free under an existing parent, every source is a regular
    file, the base filenames are usable and pairwise distinct, and the
    operating system refuses nothing. *)
Lemma stage_succeeds (E : Env) (tmp : string) (files : list InputFile) (w : World) :
  os_fault E (Mkdir tmp) = None →
  path_exists (fs w) tmp = false →
  reserved_name (basename tmp) = false →
  is_Some (dirs (fs w) !! parent tmp) →
  Forall (linkable E tmp (fs w)) files →
  NoDup (base_filenames files) →
  ∃ w', stage E tmp files w = (Ret tt, w').
Proof.
  intros Hok Hfree Hres [m Hpar] Hall Hnd.
  unfold stage, os_mkdir. 
  destruct (fs_mkdir (fs w) tmp) as [en|s1] eqn:Hmk.
  { unfold fs_mkdir in Hmk. by rewrite Hfree, Hres, Hpar in Hmk. }
  erewrite bind_Ret; [|by rewrite syscall_run, Hok, Hmk].
  apply fs_mkdir_empty in Hmk as Hempty. destruct Hempty as [Hempty _].
  eapply (link_files_succeeds E tmp files _ ∅); simpl; [done| |done|by intros].
  eapply Forall_impl; [exact Hall|]. intros f (p & i & ? & Hsrc & ? & ?).
  exists p, i. split_and!; try done. by eapply lookup_node_mkdir.
Qed.

(** ** What the task reads from its environment *)

Lemma syscall_env (E1 E2 : Env) (c : Call) (f : FS → Errno + FS) (w : World) :
  os_fault E1 c = os_fault E2 c → syscall E1 c f w = syscall E2 c f w.
Proof. intros H. by rewrite !syscall_run, H. Qed.

Lemma stage_env (E1 E2 : Env) (tmp : string) (files : list InputFile) (w : World) :
  (∀ c, os_fault E1 c = os_fault E2 c) →
  stage E1 tmp files w = stage E2 tmp files w.
Proof.
  intros Hf. unfold stage, os_mkdir, bind.
  rewrite (syscall_env E1 E2) by done.
  destruct (syscall E2 _ _ w) as [[[]|?|] w1]; [|done..]. clear w.
  revert w1. induction files as [|file rest IH]; intros w; [done|].
  rewrite !link_files_cons. destruct (file !! "path") as [p|]; [|done].
  rewrite (syscall_env E1 E2) by done.
  by destruct (syscall E2 _ _ w) as [[[]|?|] w1].
Qed.

Lemma poll_loop_env (E1 E2 : Env) (cmd : list string) :
  (∀ n s, proc_effect E1 cmd n s = proc_effect E2 cmd n s) →
  (∀ n, is_Some (proc_status E1 cmd n) ↔ is_Some (proc_status E2 cmd n)) →
  ∀ fuel n w, poll_loop E1 fuel cmd n w = poll_loop E2 fuel cmd n w.
Proof.
  intros Heff Hst. induction fuel as [|fuel IH]; intros n w; [done|].
  rewrite !poll_loop_step, Heff. specialize (Hst n).
  destruct (proc_status E1 cmd n) as [rc1|], (proc_status E2 cmd n) as [rc2|].
  - done.
  - assert (is_Some (@None Z)) as [? ?] by (apply Hst; eauto). done.
  - assert (is_Some (@None Z)) as [? ?] by (apply Hst; eauto). done.
  - apply IH.
Qed.

Lemma remove_temp_dir_env (E1 E2 : Env) (tmp : string) (w : World) :
  (∀ c, os_fault E1 c = os_fault E2 c) →
  remove_temp_dir E1 tmp w = remove_temp_dir E2 tmp w.
Proof.
  intros Hf. rewrite !remove_temp_dir_run.
  destruct (path_exists (fs w) tmp); [|done]. by apply syscall_env.
Qed.

(** ** A run that returns *)

(** With polls enough, a run whose staging, launch and removal are not
    refused returns once the process has terminated. *)
Lemma json_timeline_returns (E : Env) (fuel : nat) (a : Args) (w w1 : World) (k : nat) :
  stage E (temp_dir_of E a) (resolved_inputs E a) w = (Ret tt, w1) →
  os_fault E (Popen (command_of E a)) = None →
  (∀ j, j < k → proc_status E (command_of E a) j = None) →
  is_Some (proc_status E (command_of E a) k) →
  k < fuel →
  os_fault E (Rmtree (temp_dir_of E a)) = None →
  (path_exists (polled_fs E (command_of E a) 0 k (fs w1)) (temp_dir_of E a) = true →
   is_dir (polled_fs E (command_of E a) 0 k (fs w1)) (temp_dir_of E a) = true) →
  ∃ w', json_timeline E fuel a w =
        (Ret (mkTaskResult [to_dict (output_file_of E a)] (workflow_id a)
                           (join " " (command_of E a))), w').
Proof.
  intros Hst Hlaunch Halive Hdone Hfuel Hrm Hdir.
  rewrite json_timeline_run, Hst, subprocess_Popen_run, Hlaunch.
  rewrite (poll_loop_exits E (command_of E a) k) by done. simpl.
  rewrite remove_temp_dir_run; simpl.
  destruct (path_exists _ _) eqn:Hex; [|by eexists].
  rewrite syscall_run, Hrm; simpl. unfold fs_rmtree.
  specialize (Hdir eq_refl). apply bool_decide_eq_true in Hdir as [m Hm].
  rewrite Hm. by eexists.
Qed.

(** The command line as the result reports it. *)
Lemma command_line_text (out tmp : string) :
  join " " (command out tmp) =
  "/hayabusa/hayabusa json-timeline --ISO-8601 --UTC --no-wizard --quiet --JSONL-output --profile super-verbose --output "
    +:+ out +:+ " --directory " +:+ tmp.
Proof. reflexivity. Qed.

(** ** What staging changes, however it ends *)

Lemma fs_mkdir_inv (s s' : FS) (p : string) :
  fs_mkdir s p = inr s' →
  ∃ m0, dirs s !! p = None ∧
        dirs s !! parent p = Some m0 ∧
        m0 !! basename p = None ∧
        s' = mkFS (<[p := ∅]> (<[parent p := <[basename p := Subdir]> m0]> (dirs s)))
                  (inodes s).
Proof.
  unfold fs_mkdir. destruct (path_exists s p) eqn:Hex; [done|]. simpl.
  destruct (reserved_name _); [done|].
  destruct (dirs s !! parent p) as [m0|] eqn:Hpar; [|done].
  intros [= <-]. apply orb_false_iff in Hex as [Hdir Hnode].
  apply bool_decide_eq_false in Hdir. apply bool_decide_eq_false in Hnode.
  unfold lookup_node in Hnode. rewrite Hpar in Hnode; simpl in Hnode.
  exists m0. split_and!; try done; by apply eq_None_not_Some.
Qed.

(** The loop touches the staging directory's entries and nothing else,
    and never takes the directory away. *)
Lemma link_files_frame (E : Env) (tmp : string) (files : list InputFile) (w : World) :
  inodes (fs (link_files E tmp files w).2) = inodes (fs w) ∧
  (∀ d, d ≠ tmp → dirs (fs (link_files E tmp files w).2) !! d = dirs (fs w) !! d) ∧
  (is_Some (dirs (fs w) !! tmp) →
   is_Some (dirs (fs (link_files E tmp files w).2) !! tmp)).
Proof.
  revert w. induction files as [|file rest IH]; intros w; [done|].
  rewrite link_files_cons. destruct (file !! "path") as [p|]; [|done].
  set (dst := tmp +:+ "/" +:+ basename p).
  rewrite syscall_run. destruct (os_fault E (Link p dst)); [done|].
  destruct (fs_link (fs w) p dst) as [en|s1] eqn:Hlink; [done|].
  apply fs_link_inv in Hlink as (i & m & _ & Hd & _ & ->).
  assert (Hpar : parent dst = tmp) by apply parent_child, basename_no_slash.
  rewrite Hpar in *.
  destruct (IH (mkWorld (mkFS (<[tmp := <[basename dst := File i]> m]> (dirs (fs w)))
                              (inodes (fs w)))
                        (trace w ++ [Link p dst]))) as (Hino & Hother & Hkeep).
  simpl in *. split_and!; [done| |].
  - intros d Hne. rewrite Hother by done. by rewrite lookup_insert_ne.
  - intros _. apply Hkeep. by rewrite lookup_insert_eq.
Qed.

(** A loop that completes has only replaced the staging directory's
    table of entries. *)
Lemma link_files_dirs (E : Env) (tmp : string) (files : list InputFile) :
  ∀ (w w' : World) (m : gmap string Node),
  link_files E tmp files w = (Ret tt, w') →
  dirs (fs w) !! tmp = Some m →
  ∃ m', dirs (fs w') = <[tmp := m']> (dirs (fs w)).
Proof.
  induction files as [|file rest IH]; intros w w' m Hrun Hm.
  - injection Hrun as <-. exists m. by rewrite insert_id.
  - rewrite link_files_cons in Hrun.
    destruct (file !! "path") as [p|]; [|done].
    set (dst := tmp +:+ "/" +:+ basename p) in *.
    destruct (syscall E (Link p dst) _ w) as [[[]|e|] w1] eqn:Hsys; [|done..].
    apply syscall_Ret_inv in Hsys as (s1 & _ & Hlink & ->).
    apply fs_link_inv in Hlink as (i & m0 & _ & Hd & _ & ->).
    assert (Hpar : parent dst = tmp) by apply parent_child, basename_no_slash.
    rewrite Hpar in *.
    destruct (IH _ w' (<[basename dst := File i]> m0) Hrun) as [m' Hm'].
    { simpl. by rewrite lookup_insert_eq. }
    exists m'. simpl in Hm'. by rewrite Hm', insert_insert_eq.
Qed.

Lemma stage_dirs (E : Env) (tmp : string) (files : list InputFile) (w w' : World) :
  stage E tmp files w = (Ret tt, w') →
  ∃ m0 m', dirs (fs w) !! tmp = None ∧
           dirs (fs w) !! parent tmp = Some m0 ∧
           m0 !! basename tmp = None ∧
           dirs (fs w') =
             <[tmp := m']> (<[parent tmp := <[basename tmp := Subdir]> m0]> (dirs (fs w))) ∧
           inodes (fs w') = inodes (fs w).
Proof.
  unfold stage. intros Hrun.
  apply bind_Ret_inv in Hrun as ([] & w1 & Hmk & Hrun).
  apply syscall_Ret_inv in Hmk as (s1 & _ & Hmk & ->).
  apply fs_mkdir_inv in Hmk as (m0 & Hfree & Hpar & Hent & ->).
  pose proof (link_files_frame E tmp files
                (mkWorld (mkFS (<[tmp := ∅]> (<[parent tmp := <[basename tmp := Subdir]> m0]>
                                               (dirs (fs w)))) (inodes (fs w)))
                         (trace w ++ [Mkdir tmp]))) as (Hino & _ & _).
  rewrite Hrun in Hino.
  eapply link_files_dirs in Hrun as [m' Hm']; [|simpl; by rewrite lookup_insert_eq].
  exists m0, m'. simpl in *. split_and!; try done.
  by rewrite Hm', insert_insert_eq.
Qed.

Lemma stage_is_link_files (E : Env) (tmp : string) (files : list InputFile) (w w0 : World) :
  os_mkdir E tmp w = (Ret tt, w0) →
  stage E tmp files w = link_files E tmp files w0.
Proof. intros Hmk. unfold stage. by erewrite bind_Ret. Qed.

Lemma link_files_app (E : Env) (tmp : string) (pre rest : list InputFile) :
  ∀ (w w1 : World),
  link_files E tmp pre w = (Ret tt, w1) →
  link_files E tmp (pre ++ rest) w = link_files E tmp rest w1.
Proof.
  induction pre as [|file pre IH]; intros w w1 Hrun.
  - by injection Hrun as <-.
  - simpl app. rewrite link_files_cons in *.
    destruct (file !! "path") as [p|]; [|done].
    destruct (syscall E _ _ w) as [[[]|e|] w0]; [|done..]. by apply IH.
Qed.

(** ** More on the polling loop *)

(** While every poll finds the process alive the loop goes on. *)
Lemma poll_loop_alive (E : Env) (cmd : list string) :
  ∀ (fuel n : nat) (w : World),
  (∀ j, j < fuel → proc_status E cmd (n + j) = None) →
  ∃ s, poll_loop E fuel cmd n w = (Hang, mkWorld s (trace w ++ heartbeats fuel)).
Proof.
  induction fuel as [|fuel IH]; intros n w Halive.
  - exists (fs w). simpl. rewrite app_nil_r. by destruct w.
  - assert (Hn : proc_status E cmd n = None).
    { specialize (Halive 0). rewrite Nat.add_0_r in Halive. apply Halive. lia. }
    rewrite poll_loop_step, Hn.
    destruct (IH (S n) (mkWorld (proc_effect E cmd n (fs w))
                   (trace w ++ [SendEvent "task-progress" None; Sleep 2]))) as [s Hs].
    { intros j Hj. rewrite Nat.add_succ_comm. apply Halive. lia. }
    exists s. rewrite Hs. simpl. by rewrite <- app_assoc.
Qed.

(** ** More on paths *)

Lemma rsplit_String (c : ascii) (s : string) :
  rsplit (String c s) =
  match rsplit s with
  | (Some d, n) => (Some (String c d), n)
  | (None, n) => if decide (c = slash) then (Some EmptyString, n) else (None, String c n)
  end.
Proof. reflexivity. Qed.

Lemma append_String (c : ascii) (r b : string) :
  String c r +:+ b = String c (r +:+ b).
Proof. reflexivity. Qed.

Lemma rsplit_after_slash (a b : string) :
  ends_with_slash a = true → no_slash b = true →
  ∃ d, rsplit (a +:+ b) = (Some d, b).
Proof.
  intros Ha Hb. induction a as [|c r IH]; [done|].
  rewrite append_String, rsplit_String.
  destruct r as [|c' r'].
  - simpl in Ha. apply bool_decide_eq_true in Ha as ->.
    change ("" +:+ b) with b. rewrite (rsplit_no_slash b Hb).
    rewrite decide_True by done. eauto.
  - destruct IH as [d Hd]; [done|]. rewrite Hd. eauto.
Qed.

(** The base name of [os.path.join(a, b)] is [b], when [b] is a plain
    name. *)
Lemma basename_os_path_join (a b : string) :
  no_slash b = true → basename (os_path_join a b) = b.
Proof.
  intros Hb. unfold os_path_join.
  assert (starts_with_slash b = false) as ->.
  { destruct b as [|c r]; [done|]. simpl in *.
    destruct (decide (c = slash)); [done|]. by apply bool_decide_eq_false. }
  destruct (bool_decide (a = "")) eqn:Hemp; simpl.
  - apply bool_decide_eq_true in Hemp as ->. change ("" +:+ b) with b.
    unfold basename. by rewrite rsplit_no_slash.
  - destruct (ends_with_slash a) eqn:Hend.
    + destruct (rsplit_after_slash a b Hend Hb) as [d Hd]. unfold basename. by rewrite Hd.
    + by apply basename_child.
Qed.

(** ** More on the calls *)

Lemma link_calls_expected (tmp : string) (files : list InputFile) (cmd : list string) (c : Call) :
  c ∈ link_calls tmp files → expected_call tmp files cmd c.
Proof.
  induction files as [|file rest IH]; simpl; [by intros ?%elem_of_nil|].
  destruct (file !! "path") as [p|] eqn:Hp; [|by intros ?%elem_of_nil].
  intros [->|Hin]%elem_of_cons.
  - simpl. split_and!; [|done|apply parent_child, basename_no_slash].
    exists file. split; [left|done].
  - specialize (IH Hin). destruct c; simpl in *; try done.
    destruct IH as [(f & Hf & Hsrc) ?]. split; [|done]. exists f. split; [by right|done].
Qed.

Lemma task_call_expected (E : Env) (a : Args) (c : Call) :
  task_call E a c →
  expected_call (temp_dir_of E a) (resolved_inputs E a) (command_of E a) c.
Proof.
  intros [Hin | [-> | [-> | [-> | ->]]]]; try done.
  apply elem_of_cons in Hin as [->|Hin]; [done|]. by apply link_calls_expected.
Qed.

(** A loop that returns has found the process alive at some number of
    polls and terminated at the next. *)
Lemma poll_loop_Ret_inv (E : Env) (cmd : list string) :
  ∀ (fuel n : nat) (w w' : World),
  poll_loop E fuel cmd n w = (Ret tt, w') →
  ∃ k, k < fuel ∧
       (∀ j, j < k → proc_status E cmd (n + j) = None) ∧
       is_Some (proc_status E cmd (n + k)) ∧
       w' = mkWorld (polled_fs E cmd n k (fs w)) (trace w ++ heartbeats k).
Proof.
  induction fuel as [|fuel IH]; intros n w w' Hrun; [done|].
  rewrite poll_loop_step in Hrun.
  destruct (proc_status E cmd n) as [rc|] eqn:Hst.
  - injection Hrun as <-. exists 0. rewrite Nat.add_0_r, Hst. simpl.
    rewrite app_nil_r. split_and!; [lia|lia|eauto|done].
  - apply IH in Hrun as (k & Hk & Halive & Hdone & ->).
    exists (S k). rewrite <- Nat.add_succ_comm. split_and!; [lia| |done|].
    + intros [|j] Hj; [by rewrite Nat.add_0_r|].
      rewrite <- Nat.add_succ_comm. apply Halive. lia.
    + simpl. by rewrite <- app_assoc.
Qed.

Lemma link_calls_length (tmp : string) (files : list InputFile) :
  Forall (λ f : InputFile, is_Some (f !! "path")) files →
  List.length (link_calls tmp files) = List.length files.
Proof.
  induction 1 as [|f rest [p Hp] _ IH]; [done|]. simpl. rewrite Hp. simpl. by rewrite IH.
Qed.

(** ** The launch *)

(** A run that gets past staging launches the command right after the
    staging calls, and launches nothing else. *)
Lemma json_timeline_launch (E : Env) (fuel : nat) (a : Args) (w w1 : World) :
  stage E (temp_dir_of E a) (resolved_inputs E a) w = (Ret tt, w1) →
  ∃ rest,
    trace (json_timeline E fuel a w).2 =
      trace w ++ staging_calls (temp_dir_of E a) (resolved_inputs E a)
        ++ Popen (command_of E a) :: rest ∧
    Forall (λ c, is_SendEvent c = true ∨ c = Sleep 2 ∨ c = Rmtree (temp_dir_of E a)) rest.
Proof.
  intros Hst. set (tmp := temp_dir_of E a) in *.
  rewrite json_timeline_run; fold tmp. rewrite Hst, subprocess_Popen_run.
  apply stage_Ret in Hst as (_ & _ & _ & Htr & _).
  destruct (os_fault E (Popen (command_of E a))); simpl.
  { exists []. split; [by rewrite Htr, <- app_assoc|constructor]. }
  set (w2 := mkWorld _ _).
  destruct (poll_loop_outcome E (command_of E a) fuel 0 w2) as (k & _ & Hk & _).
  pose proof (remove_temp_dir_trace E tmp (poll_loop E fuel (command_of E a) 0 w2).2) as Hrm.
  assert (Hhb : Forall (λ c, is_SendEvent c = true ∨ c = Sleep 2 ∨ c = Rmtree tmp)
                       (heartbeats k)).
  { apply Forall_forall. intros c Hc. apply heartbeats_calls in Hc as [-> | ->]; auto. }
  destruct (poll_loop E fuel _ 0 w2) as [[[]|?|] w3]; simpl in *.
  2,3: exists (heartbeats k); split; [by rewrite Hk, Htr, <- !app_assoc|done].
  exists (heartbeats k ++ (if path_exists (fs w3) tmp then [Rmtree tmp] else [])).
  split.
  - destruct (remove_temp_dir E tmp w3) as [[[]|?|] w4]; simpl in *;
      by rewrite Hrm, Hk, Htr, <- !app_assoc.
  - apply Forall_app_2; [done|].
    destruct (path_exists (fs w3) tmp); [apply Forall_singleton; auto|constructor].
Qed.

(** * The claims *)

(** C1 (output non-emptiness), evaluated where the code departs from it.
    The tool exits at the first poll with status 1 and writes nothing;
    when the task ends no file exists at the output path, and the task
    has returned a result naming that path.  The same happens when the
    tool leaves a file of zero bytes. *)
Theorem C1_missing_output_returns_success :
  proc_status Ex.env_silent (command_of Ex.env_silent (Ex.args Ex.three_logs)) 0 = Some 1%Z ∧
  output_missing (fs (json_timeline Ex.env_silent 5 (Ex.args Ex.three_logs) Ex.w0).2)
                 (path (output_file_of Ex.env_silent (Ex.args Ex.three_logs))) ∧
  (json_timeline Ex.env_silent 5 (Ex.args Ex.three_logs) Ex.w0).1 =
    Ret (mkTaskResult [to_dict (output_file_of Ex.env_silent (Ex.args Ex.three_logs))]
                      (Some "workflow-7")
                      (join " " (command "/out/5eed.jsonl" "/out/c0ffee"))) ∧
  file_content (fs (json_timeline (Ex.env_tool "" 0) 5 (Ex.args Ex.three_logs) Ex.w0).2)
               (path (output_file_of (Ex.env_tool "" 0) (Ex.args Ex.three_logs))) = Some "" ∧
  (json_timeline (Ex.env_tool "" 0) 5 (Ex.args Ex.three_logs) Ex.w0).1 =
    Ret (mkTaskResult [to_dict (output_file_of (Ex.env_tool "" 0) (Ex.args Ex.three_logs))]
                      (Some "workflow-7")
                      (join " " (command "/out/5eed.jsonl" "/out/c0ffee"))).
Proof.
  split_and!; [done|left|..]; by vm_compute.
Qed.




(** C3 (staging completeness).  For a non-empty list of inputs with
    pairwise distinct base filenames, when the staging step has
    completed, the staging directory holds exactly one entry per input
    (as many entries as inputs, under exactly the inputs' base filenames);
    the entry for an input is a regular file with the inode the input's
    source path has, so both names reach the same content; and no file
    content was written or copied. *)
Theorem C3_staging_completeness
    (E : Env) (tmp : string) (files : list InputFile) (w w' : World) :
  files ≠ [] →
  NoDup (base_filenames files) →
  stage E tmp files w = (Ret tt, w') →
  ∃ m : gmap string Node,
    dirs (fs w') !! tmp = Some m ∧
    dom m = list_to_set (base_filenames files) ∧
    size m = List.length files ∧
    inodes (fs w') = inodes (fs w) ∧
    Forall (λ f : InputFile, ∃ p i,
              f !! "path" = Some p ∧
              m !! basename p = Some (File i) ∧
              lookup_node (fs w') (tmp +:+ "/" +:+ basename p) = Some (File i) ∧
              lookup_node (fs w') p = Some (File i) ∧
              file_content (fs w') (tmp +:+ "/" +:+ basename p) = file_content (fs w') p)
           files.
Proof.
  intros _ _ Hrun.
  destruct (stage_Ret E tmp files w w' Hrun)
    as (m & Hm & Hino & _ & Hdom & Hsize & _ & Hall).
  exists m. split_and!; try done.
  eapply Forall_impl; [exact Hall|]. intros f (p & i & Hp & Hent & Hsrc).
  assert (Hdst : lookup_node (fs w') (tmp +:+ "/" +:+ basename p) = Some (File i)).
  { unfold lookup_node.
    rewrite parent_child, basename_child by apply basename_no_slash.
    by rewrite Hm. }
  exists p, i. split_and!; try done.
  unfold file_content. by rewrite Hdst, Hsrc.
Qed.

Lemma C3_witness :
  ∃ m : gmap string Node,
    dirs (fs (stage Ex.env_ok "/out/c0ffee" Ex.three_logs Ex.w0).2) !! "/out/c0ffee" = Some m ∧
    dom m = list_to_set (base_filenames Ex.three_logs) ∧
    size m = 3.
Proof.
  assert (Hne : Ex.three_logs ≠ []) by done.
  assert (Hnd : NoDup (base_filenames Ex.three_logs)).
  { apply (bool_decide_unpack _). vm_compute. exact I. }
  assert (Hrun : stage Ex.env_ok "/out/c0ffee" Ex.three_logs Ex.w0 =
                 (Ret tt, (stage Ex.env_ok "/out/c0ffee" Ex.three_logs Ex.w0).2))
    by (vm_compute; reflexivity).
  destruct (C3_staging_completeness Ex.env_ok "/out/c0ffee" Ex.three_logs Ex.w0 _
              Hne Hnd Hrun) as (m & Hm & Hdom & Hsize & _).
  exists m. by split_and!.
Defined.

(** C4 (command determinism).  Two runs that get past staging with the
    same output artifact path and the same staging directory path hand
    the same command line to [Popen], token for token: the fixed sequence
    [/hayabusa/hayabusa json-timeline --ISO-8601 --UTC --no-wizard --quiet
    --JSONL-output --profile super-verbose --output <path> --directory
    <staging dir>].  In each run that launch comes right after the
    staging calls and is the only launch: the calls after it are events,
    pauses and the removal of the staging directory. *)
Theorem C4_command_line_is_fixed
    (E1 E2 : Env) (a1 a2 : Args) (fuel1 fuel2 : nat) (w1 w2 s1 s2 : World) :
  path (output_file_of E1 a1) = path (output_file_of E2 a2) →
  temp_dir_of E1 a1 = temp_dir_of E2 a2 →
  stage E1 (temp_dir_of E1 a1) (resolved_inputs E1 a1) w1 = (Ret tt, s1) →
  stage E2 (temp_dir_of E2 a2) (resolved_inputs E2 a2) w2 = (Ret tt, s2) →
  ∃ cmd rest1 rest2,
    cmd = [ "/hayabusa/hayabusa"; "json-timeline"; "--ISO-8601"; "--UTC"; "--no-wizard";
            "--quiet"; "--JSONL-output"; "--profile"; "super-verbose";
            "--output"; path (output_file_of E1 a1);
            "--directory"; temp_dir_of E1 a1 ] ∧
    trace (json_timeline E1 fuel1 a1 w1).2 =
      trace w1 ++ staging_calls (temp_dir_of E1 a1) (resolved_inputs E1 a1)
        ++ Popen cmd :: rest1 ∧
    trace (json_timeline E2 fuel2 a2 w2).2 =
      trace w2 ++ staging_calls (temp_dir_of E2 a2) (resolved_inputs E2 a2)
        ++ Popen cmd :: rest2 ∧
    Forall (λ c, is_SendEvent c = true ∨ c = Sleep 2 ∨ c = Rmtree (temp_dir_of E1 a1)) rest1 ∧
    Forall (λ c, is_SendEvent c = true ∨ c = Sleep 2 ∨ c = Rmtree (temp_dir_of E2 a2)) rest2.
Proof.
  intros Hout Htmp Hst1 Hst2.
  destruct (json_timeline_launch E1 fuel1 a1 w1 s1 Hst1) as (rest1 & Htr1 & Hrest1).
  destruct (json_timeline_launch E2 fuel2 a2 w2 s2 Hst2) as (rest2 & Htr2 & Hrest2).
  assert (Hcmd : command_of E2 a2 = command_of E1 a1).
  { unfold command_of. by rewrite Hout, Htmp. }
  rewrite Hcmd in Htr2.
  exists (command_of E1 a1), rest1, rest2. by split_and!.
Qed.

Lemma C4_witness :
  ∃ rest1 rest2,
    trace (json_timeline (Ex.env_tool "{}" 0) 5 (Ex.args Ex.three_logs) Ex.w0).2 =
      staging_calls "/out/c0ffee" Ex.three_logs
        ++ Popen (command "/out/5eed.jsonl" "/out/c0ffee") :: rest1 ∧
    trace (json_timeline (Ex.env_tool "{}" 1) 3 (Ex.args []) Ex.w0).2 =
      staging_calls "/out/c0ffee" []
        ++ Popen (command "/out/5eed.jsonl" "/out/c0ffee") :: rest2.
Proof.
  destruct (C4_command_line_is_fixed (Ex.env_tool "{}" 0) (Ex.env_tool "{}" 1)
              (Ex.args Ex.three_logs) (Ex.args []) 5 3 Ex.w0 Ex.w0
              (stage (Ex.env_tool "{}" 0) "/out/c0ffee" Ex.three_logs Ex.w0).2
              (stage (Ex.env_tool "{}" 1) "/out/c0ffee" [] Ex.w0).2)
    as (cmd & rest1 & rest2 & -> & Htr1 & Htr2 & _).
  - reflexivity.
  - reflexivity.
  - vm_compute. reflexivity.
  - vm_compute. reflexivity.
  - exists rest1, rest2. split; [exact Htr1|exact Htr2].
Defined.

(** C5 (task result).  A run that returns yields a result with exactly
    one output descriptor, the serialised form of the allocated output
    file; the workflow identifier it was called with; and, as one string
    joined by single spaces, the command line it executed: that command
    was handed to [Popen] in this run, and no other was. *)
Theorem C5_task_result (E : Env) (fuel : nat) (a : Args) (w w' : World) (r : TaskResult) :
  json_timeline E fuel a w = (Ret r, w') →
  result_output_files r = [to_dict (output_file_of E a)] ∧
  result_workflow_id r = workflow_id a ∧
  result_command r = join " " (command_of E a) ∧
  result_command r =
    "/hayabusa/hayabusa json-timeline --ISO-8601 --UTC --no-wizard --quiet --JSONL-output --profile super-verbose --output "
      +:+ path (output_file_of E a) +:+ " --directory " +:+ temp_dir_of E a ∧
  ∃ new, trace w' = trace w ++ new ∧
         Popen (command_of E a) ∈ new ∧
         ∀ c, Popen c ∈ new → c = command_of E a.
Proof.
  intros Hrun.
  destruct (json_timeline_calls E fuel a w) as (new & Htr & Hall).
  rewrite Hrun in Htr; simpl in Htr.
  apply json_timeline_Ret_inv in Hrun as (w1 & w3 & Hst & _ & Hpoll & Hrm & ->).
  split_and!; [done..|apply command_line_text|]. exists new. split_and!; [done| |].
  - destruct (stage_outcome E (temp_dir_of E a) (resolved_inputs E a) w) as [[j Hj] _].
    rewrite Hst in Hj; simpl in Hj.
    destruct (poll_loop_outcome E (command_of E a) fuel 0
                (mkWorld (fs w1) (trace w1 ++ [Popen (command_of E a)]))) as (k & _ & Hk & _).
    rewrite Hpoll in Hk; simpl in Hk.
    apply remove_temp_dir_Ret in Hrm as [_ Hrm].
    rewrite Hrm, Hk, Hj, <- !app_assoc in Htr. apply app_inv_head in Htr. subst new.
    rewrite !elem_of_app. right. left. apply list_elem_of_here.
  - intros c Hc. rewrite Forall_forall in Hall. by apply task_call_Popen, Hall.
Qed.

Lemma C5_witness :
  json_timeline Ex.env_ok 5 (Ex.args Ex.three_logs) Ex.w0 =
    (Ret (mkTaskResult [to_dict (Ex.new_output_file "/out" "Hayabusa_JSONL_timeline" "jsonl"
                                   "openrelik:worker:hayabusa:file:jsonl")]
                       (Some "workflow-7")
                       (join " " (command "/out/5eed.jsonl" "/out/c0ffee"))),
     (json_timeline Ex.env_ok 5 (Ex.args Ex.three_logs) Ex.w0).2) ∧
  result_workflow_id
    (mkTaskResult [to_dict (Ex.new_output_file "/out" "Hayabusa_JSONL_timeline" "jsonl"
                              "openrelik:worker:hayabusa:file:jsonl")]
                  (Some "workflow-7")
                  (join " " (command "/out/5eed.jsonl" "/out/c0ffee")))
  = workflow_id (Ex.args Ex.three_logs).
Proof.
  assert (Hrun : json_timeline Ex.env_ok 5 (Ex.args Ex.three_logs) Ex.w0 =
    (Ret (mkTaskResult [to_dict (Ex.new_output_file "/out" "Hayabusa_JSONL_timeline" "jsonl"
                                   "openrelik:worker:hayabusa:file:jsonl")]
                       (Some "workflow-7")
                       (join " " (command "/out/5eed.jsonl" "/out/c0ffee"))),
     (json_timeline Ex.env_ok 5 (Ex.args Ex.three_logs) Ex.w0).2))
    by (vm_compute; reflexivity).
  split; [exact Hrun|].
  exact (proj1 (proj2 (C5_task_result _ _ _ _ _ _ Hrun))).
Defined.

(** C6 (the exit status is not looked at).  Two runs that differ at most
    in the exit status the terminated process reports end the same way:
    the same result or error, the same files, the same calls. *)
Theorem C6_exit_status_ignored (E1 E2 : Env) (fuel : nat) (a : Args) (w : World) :
  same_but_exit_status E1 E2 →
  json_timeline E1 fuel a w = json_timeline E2 fuel a w.
Proof.
  intros (Hin & Hout & Huuid & Hfault & Heff & Hst).
  assert (Htmp : temp_dir_of E1 a = temp_dir_of E2 a).
  { unfold temp_dir_of. by rewrite Huuid. }
  assert (Hfiles : resolved_inputs E1 a = resolved_inputs E2 a) by apply Hin.
  assert (Hof : output_file_of E1 a = output_file_of E2 a) by apply Hout.
  assert (Hcmd : command_of E1 a = command_of E2 a).
  { unfold command_of. by rewrite Hof, Htmp. }
  rewrite !json_timeline_run, Htmp, Hfiles, Hof, Hcmd.
  rewrite (stage_env E1 E2) by done.
  destruct (stage E2 _ _ w) as [[[]|?|] w1]; [|done..].
  rewrite !subprocess_Popen_run, Hfault.
  destruct (os_fault E2 (Popen (command_of E2 a))); [done|].
  rewrite (poll_loop_env E1 E2) by done.
  destruct (poll_loop E2 fuel _ 0 _) as [[[]|?|] w3]; [|done..].
  by rewrite (remove_temp_dir_env E1 E2).
Qed.

Lemma C6_witness :
  proc_status (Ex.env_tool "{}" 0) (command_of (Ex.env_tool "{}" 0) (Ex.args Ex.three_logs)) 2
    = Some 0%Z ∧
  proc_status (Ex.env_tool "{}" 1) (command_of (Ex.env_tool "{}" 1) (Ex.args Ex.three_logs)) 2
    = Some 1%Z ∧
  json_timeline (Ex.env_tool "{}" 0) 5 (Ex.args Ex.three_logs) Ex.w0 =
  json_timeline (Ex.env_tool "{}" 1) 5 (Ex.args Ex.three_logs) Ex.w0.
Proof.
  split_and!; [reflexivity..|]. apply C6_exit_status_ignored.
  split_and!; try reflexivity.
  intros cmd n; simpl. destruct (decide (n < 2)); [done|]. split; eauto.
Defined.

(** C7 (heartbeats).  In a run whose process is launched, is found alive
    by the first [k] polls and terminated by the next, the calls after
    the launch are exactly [k] heartbeats, each the event
    ["task-progress"] without payload followed by a pause of 2 seconds,
    and then at most the removal of the staging directory: no event is
    sent once the process has been found terminated. *)
Theorem C7_heartbeats_while_alive
    (E : Env) (fuel : nat) (a : Args) (w w1 : World) (k : nat) :
  stage E (temp_dir_of E a) (resolved_inputs E a) w = (Ret tt, w1) →
  os_fault E (Popen (command_of E a)) = None →
  (∀ j, j < k → proc_status E (command_of E a) j = None) →
  is_Some (proc_status E (command_of E a) k) →
  k < fuel →
  trace (json_timeline E fuel a w).2 =
    trace w1 ++ Popen (command_of E a) :: heartbeats k ++
    (if path_exists (polled_fs E (command_of E a) 0 k (fs w1)) (temp_dir_of E a)
     then [Rmtree (temp_dir_of E a)] else []) ∧
  filter (λ c, is_SendEvent c = true) (heartbeats k) =
    replicate k (SendEvent "task-progress" None) ∧
  INTERVAL_SECONDS = 2%Z.
Proof.
  intros Hst Hlaunch Halive Hdone Hfuel. split_and!; [| |done].
  - rewrite json_timeline_run, Hst, subprocess_Popen_run, Hlaunch.
    rewrite (poll_loop_exits E (command_of E a) k) by done. simpl.
    set (w3 := mkWorld _ _).
    pose proof (remove_temp_dir_trace E (temp_dir_of E a) w3) as Hrm.
    destruct (remove_temp_dir E _ w3) as [[[]|?|] w4]; simpl in *;
      by rewrite Hrm, <- !app_assoc.
  - clear. induction k as [|k IH]; [done|]. simpl.
    rewrite filter_cons_True by done. rewrite filter_cons_False by done.
    by rewrite IH.
Qed.

Lemma C7_witness :
  trace (json_timeline Ex.env_ok 5 (Ex.args Ex.three_logs) Ex.w0).2 =
    staging_calls "/out/c0ffee" Ex.three_logs ++
    [ Popen (command "/out/5eed.jsonl" "/out/c0ffee");
      SendEvent "task-progress" None; Sleep 2;
      SendEvent "task-progress" None; Sleep 2;
      Rmtree "/out/c0ffee" ].
Proof.
  assert (Hst : stage Ex.env_ok (temp_dir_of Ex.env_ok (Ex.args Ex.three_logs))
                  (resolved_inputs Ex.env_ok (Ex.args Ex.three_logs)) Ex.w0 =
                (Ret tt, (stage Ex.env_ok "/out/c0ffee" Ex.three_logs Ex.w0).2))
    by (vm_compute; reflexivity).
  assert (Halive : ∀ j, j < 2 →
            proc_status Ex.env_ok (command_of Ex.env_ok (Ex.args Ex.three_logs)) j = None).
  { intros j Hj. simpl. by destruct (decide (j < 2)). }
  destruct (C7_heartbeats_while_alive Ex.env_ok 5 (Ex.args Ex.three_logs) Ex.w0 _ 2
              Hst eq_refl Halive (mk_is_Some _ _ eq_refl) ltac:(lia)) as [Htr _].
  rewrite Htr. vm_compute. reflexivity.
Defined.



(** C9 (empty input).  With no input file the staging step is the
    creation of the directory alone; when that succeeds the directory is
    empty and the next call is the launch of the tool on it; no error of
    such a run is about the inputs: the only exceptions are the [OSError]
    of [os.mkdir], of the launch and of the removal. *)
Theorem C9_empty_input_accepted (E : Env) (fuel : nat) (a : Args) (w : World) :
  resolved_inputs E a = [] →
  stage E (temp_dir_of E a) (resolved_inputs E a) w = os_mkdir E (temp_dir_of E a) w ∧
  (∀ w1, os_mkdir E (temp_dir_of E a) w = (Ret tt, w1) →
         dirs (fs w1) !! temp_dir_of E a = Some ∅ ∧
         ∃ rest, trace (json_timeline E fuel a w).2 =
                 trace w ++ Mkdir (temp_dir_of E a) :: Popen (command_of E a) :: rest) ∧
  (∀ e, (json_timeline E fuel a w).1 = Raise e →
        ∃ en, e = OSError (Mkdir (temp_dir_of E a)) en ∨
              e = OSError (Popen (command_of E a)) en ∨
              e = OSError (Rmtree (temp_dir_of E a)) en).
Proof.
  set (tmp := temp_dir_of E a). intros Hempty. rewrite Hempty.
  assert (Hstage : stage E tmp [] w = os_mkdir E tmp w).
  { unfold stage, bind. by destruct (os_mkdir E tmp w) as [[[]|?|] ?]. }
  split_and!; [done| |].
  - intros w1 Hmk. split.
    { apply syscall_Ret_inv in Hmk as (s1 & _ & Hmk & ->).
      by apply fs_mkdir_empty in Hmk as [? _]. }
    rewrite json_timeline_run; fold tmp. rewrite Hempty, Hstage, Hmk.
    apply syscall_Ret_inv in Hmk as (s1 & _ & _ & ->).
    rewrite subprocess_Popen_run; simpl.
    destruct (os_fault E (Popen (command_of E a))); simpl.
    { exists []. by rewrite <- app_assoc. }
    set (w2 := mkWorld _ _).
    destruct (poll_loop_outcome E (command_of E a) fuel 0 w2) as (k & _ & Hk & _).
    pose proof (remove_temp_dir_trace E tmp (poll_loop E fuel (command_of E a) 0 w2).2) as Hrm.
    destruct (poll_loop E fuel _ 0 w2) as [[[]|?|] w3]; simpl in *.
    2,3: exists (heartbeats k); by rewrite Hk, <- !app_assoc.
    eexists (heartbeats k ++ _).
    destruct (remove_temp_dir E tmp w3) as [[[]|?|] w4]; simpl in *;
      by rewrite Hrm, Hk, <- !app_assoc.
  - rewrite json_timeline_run; fold tmp. rewrite Hempty, Hstage.
    pose proof (syscall_outcome E (Mkdir tmp) (λ s, fs_mkdir s tmp) w) as [_ Hmk].
    fold (os_mkdir E tmp) in Hmk.
    destruct (os_mkdir E tmp w) as [[[]|e0|] w1]; simpl in *.
    2: { intros e [= <-]. destruct Hmk as (en & -> & _). eauto. }
    2: done.
    rewrite subprocess_Popen_run.
    destruct (os_fault E (Popen (command_of E a))) as [en|]; simpl.
    { intros e [= <-]. eauto. }
    set (w2 := mkWorld _ _).
    destruct (poll_loop_outcome E (command_of E a) fuel 0 w2) as (k & _ & _ & _ & Hpoll).
    destruct (poll_loop E fuel _ 0 w2) as [[[]|?|] w3]; simpl in *; [|done..].
    pose proof (remove_temp_dir_outcome E tmp w3) as Hrm.
    destruct (remove_temp_dir E tmp w3) as [[[]|e0|] w4]; simpl in *; [done| |done].
    intros e [= <-]. destruct Hrm as [en ->]. eauto.
Qed.

Lemma C9_witness :
  dirs (fs (os_mkdir Ex.env_ok "/out/c0ffee" Ex.w0).2) !! "/out/c0ffee" = Some ∅ ∧
  ∃ rest, trace (json_timeline Ex.env_ok 5 (Ex.args []) Ex.w0).2 =
          trace Ex.w0 ++ Mkdir "/out/c0ffee"
            :: Popen (command "/out/5eed.jsonl" "/out/c0ffee") :: rest.
Proof.
  assert (Hmk : os_mkdir Ex.env_ok (temp_dir_of Ex.env_ok (Ex.args [])) Ex.w0 =
                (Ret tt, (os_mkdir Ex.env_ok "/out/c0ffee" Ex.w0).2))
    by (vm_compute; reflexivity).
  destruct (C9_empty_input_accepted Ex.env_ok 5 (Ex.args []) Ex.w0 eq_refl)
    as (_ & Hrun & _).
  exact (Hrun _ Hmk).
Defined.

(** C10 (the output check cannot fail).  The list tested by the check of
    line 99 is the empty list of line 50 with one descriptor appended,
    whatever the files look like; it is never empty, so no run ends with
    the [RuntimeError] of line 100 (nor with any other [RuntimeError]),
    and every run that returns carries exactly that one descriptor. *)
Theorem C10_output_check_unreachable (E : Env) (fuel : nat) (a : Args) (w : World) :
  List.length (([] : list Descriptor) ++ [to_dict (output_file_of E a)]) = 1 ∧
  bool_decide (([] : list Descriptor) ++ [to_dict (output_file_of E a)] = []) = false ∧
  match (json_timeline E fuel a w).1 with
  | Ret r => result_output_files r = [to_dict (output_file_of E a)]
  | Raise (RuntimeError _) => False
  | Raise _ => True
  | Hang => True
  end.
Proof.
  split_and!; [done..|]. rewrite json_timeline_run.
  set (tmp := temp_dir_of E a).
  pose proof (stage_outcome E tmp (resolved_inputs E a) w) as [_ Hst].
  destruct (stage E tmp _ w) as [[[]|e|] w1]; simpl in *; [|by destruct Hst as [Hst _], e as [[]| |]|done].
  rewrite subprocess_Popen_run.
  destruct (os_fault E (Popen (command_of E a))); [done|].
  set (w2 := mkWorld _ _).
  destruct (poll_loop_outcome E (command_of E a) fuel 0 w2) as (k & _ & _ & _ & Hpoll).
  destruct (poll_loop E fuel _ 0 w2) as [[[]|e|] w3]; simpl in *; [|done..].
  pose proof (remove_temp_dir_outcome E tmp w3) as Hrm.
  destruct (remove_temp_dir E tmp w3) as [[[]|e|] w4]; simpl in *; [done| |done].
  by destruct Hrm as [en ->].
Qed.

(** * Further properties of the task *)

(** X1 (staging completes).  When the staging path is free under an
    existing directory, every input's path names a regular file, the base
    filenames are usable and pairwise distinct and the operating system
    refuses nothing, lines 62-65 run to their end: they have made the
    [os.mkdir] call and one [os.link] call per input, in input order, and
    the staging directory exists. *)
Theorem X1_staging_completes (E : Env) (tmp : string) (files : list InputFile) (w : World) :
  os_fault E (Mkdir tmp) = None →
  path_exists (fs w) tmp = false →
  reserved_name (basename tmp) = false →
  is_Some (dirs (fs w) !! parent tmp) →
  Forall (linkable E tmp (fs w)) files →
  NoDup (base_filenames files) →
  ∃ w', stage E tmp files w = (Ret tt, w') ∧
        trace w' = trace w ++ staging_calls tmp files ∧
        is_dir (fs w') tmp = true.
Proof.
  intros Hok Hfree Hres Hpar Hall Hnd.
  destruct (stage_succeeds E tmp files w Hok Hfree Hres Hpar Hall Hnd) as [w' Hrun].
  exists w'. split; [done|].
  apply stage_Ret in Hrun as (m & Hm & _ & Htr & _). split; [done|].
  unfold is_dir. apply bool_decide_eq_true. by rewrite Hm.
Qed.

Lemma X1_witness :
  ∃ w', stage Ex.env_ok "/out/c0ffee" Ex.three_logs Ex.w0 = (Ret tt, w') ∧
        trace w' = trace Ex.w0 ++ staging_calls "/out/c0ffee" Ex.three_logs ∧
        is_dir (fs w') "/out/c0ffee" = true.
Proof.
  apply X1_staging_completes.
  - reflexivity.
  - vm_compute. reflexivity.
  - vm_compute. reflexivity.
  - apply (bool_decide_unpack _). vm_compute. exact I.
  - repeat apply Forall_cons_2; [| | |apply Forall_nil_2].
    + exists "/evidence/a.evtx", 1. split_and!; vm_compute; reflexivity.
    + exists "/evidence/b.evtx", 2. split_and!; vm_compute; reflexivity.
    + exists "/evidence/c.evtx", 3. split_and!; vm_compute; reflexivity.
  - apply (bool_decide_unpack _). vm_compute. exact I.
Defined.

(** X2 (a run returns).  After a successful staging, when the launch is
    not refused, the process is found terminated at some poll within the
    polls allowed, the removal is not refused and the tool has not put a
    file in the staging directory's place, the task returns its result,
    and the staging directory is gone. *)
Theorem X2_run_returns (E : Env) (fuel : nat) (a : Args) (w w1 : World) (k : nat) :
  stage E (temp_dir_of E a) (resolved_inputs E a) w = (Ret tt, w1) →
  os_fault E (Popen (command_of E a)) = None →
  (∀ j, j < k → proc_status E (command_of E a) j = None) →
  is_Some (proc_status E (command_of E a) k) →
  k < fuel →
  os_fault E (Rmtree (temp_dir_of E a)) = None →
  (path_exists (polled_fs E (command_of E a) 0 k (fs w1)) (temp_dir_of E a) = true →
   is_dir (polled_fs E (command_of E a) 0 k (fs w1)) (temp_dir_of E a) = true) →
  ∃ w', json_timeline E fuel a w =
          (Ret (mkTaskResult [to_dict (output_file_of E a)] (workflow_id a)
                             (join " " (command_of E a))), w') ∧
        path_exists (fs w') (temp_dir_of E a) = false.
Proof.
  intros Hst Hlaunch Halive Hdone Hfuel Hrm Hdir.
  destruct (json_timeline_returns E fuel a w w1 k Hst Hlaunch Halive Hdone Hfuel Hrm Hdir)
    as [w' Hrun].
  exists w'. split; [done|].
  pose proof Hrun as Hinv.
  apply json_timeline_Ret_inv in Hinv as (? & w3 & _ & _ & _ & Hrem & _).
  by apply remove_temp_dir_Ret in Hrem as [? _].
Qed.

Lemma X2_witness :
  ∃ w', json_timeline Ex.env_ok 5 (Ex.args Ex.three_logs) Ex.w0 =
          (Ret (mkTaskResult
                  [to_dict (output_file_of Ex.env_ok (Ex.args Ex.three_logs))]
                  (workflow_id (Ex.args Ex.three_logs))
                  (join " " (command_of Ex.env_ok (Ex.args Ex.three_logs)))), w') ∧
        path_exists (fs w') (temp_dir_of Ex.env_ok (Ex.args Ex.three_logs)) = false.
Proof.
  apply (X2_run_returns Ex.env_ok 5 (Ex.args Ex.three_logs) Ex.w0
           (stage Ex.env_ok "/out/c0ffee" Ex.three_logs Ex.w0).2 2).
  - vm_compute. reflexivity.
  - reflexivity.
  - intros j Hj. simpl. by destruct (decide (j < 2)).
  - vm_compute. eauto.
  - lia.
  - reflexivity.
  - intros _. vm_compute. reflexivity.
Defined.

(** X3 (no timeout).  After a successful staging and launch, as long as
    every poll finds the process alive the task has not ended, whatever
    the number of polls: by then it has sent one heartbeat per poll and
    has made no call to remove the staging directory. *)
Theorem X3_waits_while_alive (E : Env) (fuel : nat) (a : Args) (w w1 : World) :
  stage E (temp_dir_of E a) (resolved_inputs E a) w = (Ret tt, w1) →
  os_fault E (Popen (command_of E a)) = None →
  (∀ j, j < fuel → proc_status E (command_of E a) j = None) →
  (json_timeline E fuel a w).1 = Hang ∧
  trace (json_timeline E fuel a w).2 =
    trace w1 ++ Popen (command_of E a) :: heartbeats fuel.
Proof.
  intros Hst Hlaunch Halive.
  rewrite json_timeline_run, Hst, subprocess_Popen_run, Hlaunch.
  destruct (poll_loop_alive E (command_of E a) fuel 0
              (mkWorld (fs w1) (trace w1 ++ [Popen (command_of E a)]))) as [s Hs];
    [done|].
  rewrite Hs. simpl. by rewrite <- app_assoc.
Qed.

Lemma X3_witness :
  (json_timeline Ex.env_forever 3 (Ex.args Ex.three_logs) Ex.w0).1 = Hang ∧
  trace (json_timeline Ex.env_forever 3 (Ex.args Ex.three_logs) Ex.w0).2 =
    trace (stage Ex.env_forever "/out/c0ffee" Ex.three_logs Ex.w0).2 ++
    Popen (command_of Ex.env_forever (Ex.args Ex.three_logs)) :: heartbeats 3.
Proof.
  apply X3_waits_while_alive.
  - vm_compute. reflexivity.
  - reflexivity.
  - intros j _. reflexivity.
Defined.

(** X4 (a failed launch).  After a successful staging, when
    [subprocess.Popen] raises, the task ends with that [OSError] having
    made no further call and changed no file: the staging directory is
    still there, with its one entry per input. *)
Theorem X4_failed_launch_keeps_staging
    (E : Env) (fuel : nat) (a : Args) (w w1 : World) (en : Errno) :
  stage E (temp_dir_of E a) (resolved_inputs E a) w = (Ret tt, w1) →
  os_fault E (Popen (command_of E a)) = Some en →
  json_timeline E fuel a w =
    (Raise (OSError (Popen (command_of E a)) en),
     mkWorld (fs w1) (trace w1 ++ [Popen (command_of E a)])) ∧
  ∃ m : gmap string Node,
    dirs (fs w1) !! temp_dir_of E a = Some m ∧
    size m = List.length (resolved_inputs E a).
Proof.
  intros Hst Hlaunch. split.
  - by rewrite json_timeline_run, Hst, subprocess_Popen_run, Hlaunch.
  - apply stage_Ret in Hst as (m & Hm & _ & _ & _ & Hsize & _). eauto.
Qed.

Lemma X4_witness :
  ∃ m : gmap string Node,
    dirs (fs (json_timeline Ex.env_no_launch 5 (Ex.args Ex.three_logs) Ex.w0).2)
      !! "/out/c0ffee" = Some m ∧
    size m = 3.
Proof.
  destruct (X4_failed_launch_keeps_staging Ex.env_no_launch 5 (Ex.args Ex.three_logs) Ex.w0
              (stage Ex.env_no_launch "/out/c0ffee" Ex.three_logs Ex.w0).2 ENOENT)
    as [Hrun (m & Hm & Hsize)].
  - vm_compute. reflexivity.
  - reflexivity.
  - exists m. rewrite Hrun. by split.
Defined.

(** X5 (a failed staging).  When [os.mkdir] has succeeded and a later
    step of the loop raises, the task ends with that exception and the
    staging directory it created is left in place: nothing removes it. *)
Theorem X5_failed_staging_leaves_directory
    (E : Env) (fuel : nat) (a : Args) (w w0 w1 : World) (e : Exn) :
  os_mkdir E (temp_dir_of E a) w = (Ret tt, w0) →
  link_files E (temp_dir_of E a) (resolved_inputs E a) w0 = (Raise e, w1) →
  json_timeline E fuel a w = (Raise e, w1) ∧
  is_dir (fs w1) (temp_dir_of E a) = true ∧
  path_exists (fs w1) (temp_dir_of E a) = true.
Proof.
  intros Hmk Hlink.
  assert (Hdir : is_dir (fs w1) (temp_dir_of E a) = true).
  { pose proof (link_files_frame E (temp_dir_of E a) (resolved_inputs E a) w0)
      as (_ & _ & Hkeep).
    rewrite Hlink in Hkeep. apply bool_decide_eq_true, Hkeep.
    apply syscall_Ret_inv in Hmk as (s1 & _ & Hmk & ->).
    apply fs_mkdir_empty in Hmk as [Hempty _]. simpl. by rewrite Hempty. }
  split_and!; [|done|].
  - rewrite json_timeline_run, (stage_is_link_files _ _ _ _ _ Hmk). by rewrite Hlink.
  - unfold path_exists. by rewrite Hdir.
Qed.

Lemma X5_witness :
  (json_timeline Ex.env_link_refused 5 (Ex.args Ex.three_logs) Ex.w0).1 =
    Raise (OSError (Link "/evidence/b.evtx" "/out/c0ffee/b.evtx") EXDEV) ∧
  path_exists (fs (json_timeline Ex.env_link_refused 5 (Ex.args Ex.three_logs) Ex.w0).2)
              "/out/c0ffee" = true.
Proof.
  destruct (X5_failed_staging_leaves_directory Ex.env_link_refused 5
              (Ex.args Ex.three_logs) Ex.w0
              (os_mkdir Ex.env_link_refused "/out/c0ffee" Ex.w0).2
              (stage Ex.env_link_refused "/out/c0ffee" Ex.three_logs Ex.w0).2
              (OSError (Link "/evidence/b.evtx" "/out/c0ffee/b.evtx") EXDEV))
    as (Hrun & _ & Hex).
  - vm_compute. reflexivity.
  - vm_compute. reflexivity.
  - rewrite Hrun. by split.
Defined.

(** X6 (staging touches nothing else).  However the staging step ends,
    a path that is neither the staging directory nor an entry directly
    inside it resolves after the step exactly as before, and to the same
    content: the inputs' sources and every other file are left alone. *)
Theorem X6_staging_leaves_other_paths
    (E : Env) (tmp : string) (files : list InputFile) (w : World) (q : string) :
  outside tmp q →
  lookup_node (fs (stage E tmp files w).2) q = lookup_node (fs w) q ∧
  file_content (fs (stage E tmp files w).2) q = file_content (fs w) q.
Proof.
  intros [Hq1 Hq2].
  assert (Hgoal : lookup_node (fs (stage E tmp files w).2) q = lookup_node (fs w) q ∧
                  inodes (fs (stage E tmp files w).2) = inodes (fs w)).
  { unfold stage, os_mkdir, bind. rewrite syscall_run.
    destruct (os_fault E (Mkdir tmp)); [done|].
    destruct (fs_mkdir (fs w) tmp) as [en|s1] eqn:Hmk; [done|].
    apply fs_mkdir_inv in Hmk as (m0 & _ & Hpar & _ & ->).
    set (w0 := mkWorld _ _).
    destruct (link_files_frame E tmp files w0) as (Hino & Hother & _).
    destruct (link_files E tmp files w0) as [o w1]; simpl in *.
    split; [|done]. unfold lookup_node. rewrite Hother by done. simpl.
    rewrite lookup_insert_ne by done.
    destruct (decide (parent tmp = parent q)) as [Heq|Hne].
    - rewrite <- Heq, lookup_insert_eq, Hpar. simpl.
      rewrite lookup_insert_ne; [done|]. destruct Hq2 as [Hq2|Hq2]; congruence.
    - by rewrite lookup_insert_ne. }
  destruct Hgoal as [Hnode Hino]. split; [done|].
  unfold file_content. by rewrite Hnode, Hino.
Qed.

Lemma X6_witness :
  file_content (fs (stage Ex.env_ok "/out/c0ffee" Ex.three_logs Ex.w0).2) "/evidence/a.evtx"
  = file_content (fs Ex.w0) "/evidence/a.evtx".
Proof.
  apply X6_staging_leaves_other_paths.
  apply (bool_decide_unpack _). vm_compute. exact I.
Defined.

(** X7 (staging and removal cancel).  When nothing existed at or below
    the staging path beforehand and the removal is not refused, removing
    the staging directory right after a completed staging gives back the
    file system as it was: directories, entries and contents. *)
Theorem X7_removal_undoes_staging
    (E : Env) (tmp : string) (files : list InputFile) (w w1 : World) :
  stage E tmp files w = (Ret tt, w1) →
  (∀ d, is_Some (dirs (fs w) !! d) → under tmp d = false) →
  os_fault E (Rmtree tmp) = None →
  ∃ w2, remove_temp_dir E tmp w1 = (Ret tt, w2) ∧ fs w2 = fs w.
Proof.
  intros Hst Hclean Hok.
  destruct (stage_dirs E tmp files w w1 Hst) as (m0 & m' & Hfree & Hpar & Hent & Hdirs & Hino).
  assert (Hm' : dirs (fs w1) !! tmp = Some m') by (by rewrite Hdirs, lookup_insert_eq).
  rewrite remove_temp_dir_run.
  assert (path_exists (fs w1) tmp = true) as ->.
  { unfold path_exists, is_dir. by rewrite Hm'. }
  rewrite syscall_run, Hok. unfold fs_rmtree. rewrite Hm'.
  eexists. split; [done|]. simpl.
  destruct w as [[D I] t]; simpl in *. f_equal; [|done].
  apply map_eq. intros k. rewrite map_lookup_filter. simpl.
  destruct (under tmp k) eqn:Hu.
  - assert (D !! k = None) as ->.
    { apply eq_None_not_Some. intros Hk. apply Hclean in Hk. congruence. }
    by destruct (alter _ _ _ !! k).
  - assert (Hk : k ≠ tmp).
    { intros ->. unfold under in Hu. by rewrite bool_decide_eq_true_2 in Hu. }
    rewrite Hdirs. destruct (decide (k = parent tmp)) as [->|Hne].
    + rewrite lookup_alter_eq, lookup_insert_ne, lookup_insert_eq by done. simpl.
      rewrite delete_insert_id by done. by rewrite Hpar.
    + rewrite lookup_alter_ne, !lookup_insert_ne by done.
      by destruct (D !! k).
Qed.

Lemma X7_witness :
  ∃ w2, remove_temp_dir Ex.env_ok "/out/c0ffee"
          (stage Ex.env_ok "/out/c0ffee" Ex.three_logs Ex.w0).2 = (Ret tt, w2) ∧
        fs w2 = fs Ex.w0.
Proof.
  apply (X7_removal_undoes_staging Ex.env_ok "/out/c0ffee" Ex.three_logs Ex.w0).
  - vm_compute. reflexivity.
  - assert (Hall : map_Forall (λ d _, under "/out/c0ffee" d = false) (dirs (fs Ex.w0))).
    { apply (bool_decide_unpack _). vm_compute. exact I. }
    intros d [m Hd]. exact (Hall d m Hd).
  - reflexivity.
Defined.

(** X8 (the calls of a run that returns).  A run that returns has made,
    in this order: the [os.mkdir] call and one [os.link] call per input;
    one launch; one heartbeat for each of the [k] polls that found the
    process alive, the poll after them having found it terminated; and at
    the end at most one removal of the staging directory. *)
Theorem X8_calls_of_a_returning_run
    (E : Env) (fuel : nat) (a : Args) (w w' : World) (r : TaskResult) :
  json_timeline E fuel a w = (Ret r, w') →
  ∃ k cleanup,
    k < fuel ∧
    (∀ j, j < k → proc_status E (command_of E a) j = None) ∧
    is_Some (proc_status E (command_of E a) k) ∧
    (cleanup = [] ∨ cleanup = [Rmtree (temp_dir_of E a)]) ∧
    trace w' = trace w ++ staging_calls (temp_dir_of E a) (resolved_inputs E a)
                 ++ Popen (command_of E a) :: heartbeats k ++ cleanup ∧
    List.length (link_calls (temp_dir_of E a) (resolved_inputs E a)) =
      List.length (resolved_inputs E a).
Proof.
  intros Hrun.
  apply json_timeline_Ret_inv in Hrun as (w1 & w3 & Hst & _ & Hpoll & Hrm & _).
  apply stage_Ret in Hst as (m & _ & _ & Htr & _ & _ & _ & Hall).
  apply poll_loop_Ret_inv in Hpoll as (k & Hk & Halive & Hdone & ->).
  apply remove_temp_dir_Ret in Hrm as [_ Hrm]. simpl in Hrm.
  exists k. eexists. split_and!; [done|done|done| |by rewrite Hrm, Htr, <- !app_assoc|].
  - destruct (path_exists _ _); auto.
  - apply link_calls_length. eapply Forall_impl; [exact Hall|].
    intros f (p & i & -> & _). eauto.
Qed.

Lemma X8_witness :
  ∃ k cleanup,
    k < 5 ∧
    trace (json_timeline Ex.env_ok 5 (Ex.args Ex.three_logs) Ex.w0).2 =
      trace Ex.w0 ++ staging_calls "/out/c0ffee" Ex.three_logs
        ++ Popen (command "/out/5eed.jsonl" "/out/c0ffee") :: heartbeats k ++ cleanup.
Proof.
  destruct (X8_calls_of_a_returning_run Ex.env_ok 5 (Ex.args Ex.three_logs) Ex.w0
              (json_timeline Ex.env_ok 5 (Ex.args Ex.three_logs) Ex.w0).2
              (mkTaskResult [to_dict (output_file_of Ex.env_ok (Ex.args Ex.three_logs))]
                            (Some "workflow-7")
                            (join " " (command "/out/5eed.jsonl" "/out/c0ffee"))))
    as (k & cleanup & Hk & _ & _ & _ & Htr & _).
  - vm_compute. reflexivity.
  - exists k, cleanup. by split.
Defined.

(** X9 (the removal is guarded).  When the staging directory no longer
    exists once the process is found terminated, [shutil.rmtree] is not
    called: the run returns with the launch and the heartbeats as its
    last calls, even where the removal would have been refused. *)
Theorem X9_no_removal_when_directory_gone
    (E : Env) (fuel : nat) (a : Args) (w w1 : World) (k : nat) :
  stage E (temp_dir_of E a) (resolved_inputs E a) w = (Ret tt, w1) →
  os_fault E (Popen (command_of E a)) = None →
  (∀ j, j < k → proc_status E (command_of E a) j = None) →
  is_Some (proc_status E (command_of E a) k) →
  k < fuel →
  path_exists (polled_fs E (command_of E a) 0 k (fs w1)) (temp_dir_of E a) = false →
  json_timeline E fuel a w =
    (Ret (mkTaskResult [to_dict (output_file_of E a)] (workflow_id a)
                       (join " " (command_of E a))),
     mkWorld (polled_fs E (command_of E a) 0 k (fs w1))
             (trace w1 ++ Popen (command_of E a) :: heartbeats k)).
Proof.
  intros Hst Hlaunch Halive Hdone Hfuel Hgone.
  rewrite json_timeline_run, Hst, subprocess_Popen_run, Hlaunch.
  rewrite (poll_loop_exits E (command_of E a) k) by done. simpl.
  rewrite remove_temp_dir_run; simpl. rewrite Hgone.
  by rewrite <- app_assoc.
Qed.

Lemma X9_witness :
  os_fault Ex.env_tool_cleans (Rmtree "/out/c0ffee") = Some EACCES ∧
  json_timeline Ex.env_tool_cleans 5 (Ex.args Ex.three_logs) Ex.w0 =
    (Ret (mkTaskResult
            [to_dict (output_file_of Ex.env_tool_cleans (Ex.args Ex.three_logs))]
            (workflow_id (Ex.args Ex.three_logs))
            (join " " (command_of Ex.env_tool_cleans (Ex.args Ex.three_logs)))),
     mkWorld (polled_fs Ex.env_tool_cleans
                (command_of Ex.env_tool_cleans (Ex.args Ex.three_logs)) 0 0
                (fs (stage Ex.env_tool_cleans "/out/c0ffee" Ex.three_logs Ex.w0).2))
             (trace (stage Ex.env_tool_cleans "/out/c0ffee" Ex.three_logs Ex.w0).2
                ++ Popen (command_of Ex.env_tool_cleans (Ex.args Ex.three_logs))
                :: heartbeats 0)).
Proof.
  split; [reflexivity|].
  apply X9_no_removal_when_directory_gone.
  - vm_compute. reflexivity.
  - reflexivity.
  - intros j Hj. lia.
  - vm_compute. eauto.
  - lia.
  - vm_compute. reflexivity.
Defined.

(** X10 (the staging directory's name).  When the identifier drawn has
    no separator in it, the staging directory's base name is that
    identifier, whatever the output path; so two invocations on the same
    output path that draw different identifiers stage in different
    directories. *)
Theorem X10_staging_dir_named_by_uuid (E1 E2 : Env) (a : Args) :
  no_slash (uuid4_hex E1) = true →
  no_slash (uuid4_hex E2) = true →
  uuid4_hex E1 ≠ uuid4_hex E2 →
  basename (temp_dir_of E1 a) = uuid4_hex E1 ∧
  temp_dir_of E1 a ≠ temp_dir_of E2 a.
Proof.
  intros H1 H2 Hne.
  assert (Hb1 : basename (temp_dir_of E1 a) = uuid4_hex E1)
    by by apply basename_os_path_join.
  assert (Hb2 : basename (temp_dir_of E2 a) = uuid4_hex E2)
    by by apply basename_os_path_join.
  split; [done|]. intros Heq. rewrite Heq in Hb1. congruence.
Qed.

Lemma X10_witness :
  basename (temp_dir_of Ex.env_ok (Ex.args Ex.three_logs)) = "c0ffee" ∧
  temp_dir_of Ex.env_ok (Ex.args Ex.three_logs) ≠
  temp_dir_of Ex.env_other_uuid (Ex.args Ex.three_logs).
Proof.
  apply (X10_staging_dir_named_by_uuid Ex.env_ok Ex.env_other_uuid).
  - reflexivity.
  - reflexivity.
  - apply (bool_decide_unpack _). vm_compute. exact I.
Defined.

(** X11 (an input without a path).  When an input dictionary has no
    ["path"] key and the staging of the inputs before it has succeeded,
    the task ends with a [TypeError] at that input: no call is made for
    it or for the inputs after it, the tool is not launched, and the
    directory and the links made so far stay. *)
Theorem X11_input_without_path
    (E : Env) (fuel : nat) (a : Args) (w w1 : World)
    (pre post : list InputFile) (f : InputFile) :
  resolved_inputs E a = pre ++ f :: post →
  f !! "path" = None →
  stage E (temp_dir_of E a) pre w = (Ret tt, w1) →
  json_timeline E fuel a w = (Raise TypeError, w1).
Proof.
  intros Hfiles Hf Hst.
  rewrite json_timeline_run, Hfiles.
  unfold stage in Hst. apply bind_Ret_inv in Hst as ([] & w0 & Hmk & Hpre).
  rewrite (stage_is_link_files _ _ _ _ _ Hmk).
  rewrite (link_files_app _ _ _ _ _ _ Hpre), link_files_cons, Hf. done.
Qed.

Lemma X11_witness :
  json_timeline Ex.env_ok 5 (Ex.args Ex.path_missing) Ex.w0 =
    (Raise TypeError,
     (stage Ex.env_ok "/out/c0ffee" [Ex.input "/evidence/a.evtx"] Ex.w0).2).
Proof.
  apply (X11_input_without_path Ex.env_ok 5 (Ex.args Ex.path_missing) Ex.w0 _
           [Ex.input "/evidence/a.evtx"] [Ex.input "/evidence/c.evtx"]
           {[ "display_name" := "b.evtx" ]}).
  - reflexivity.
  - vm_compute. reflexivity.
  - vm_compute. reflexivity.
Defined.

(** X13 (nothing but its own calls).  Whatever the outcome, a run only
    adds calls to those made before, and each is one of: [os.mkdir] of
    the staging directory; [os.link] of an input's path to its base
    filename directly inside the staging directory; the launch of the
    one command line; the event ["task-progress"] without payload; a
    pause of 2 seconds; [shutil.rmtree] of the staging directory. *)
Theorem X13_only_expected_calls (E : Env) (fuel : nat) (a : Args) (w : World) :
  ∃ new, trace (json_timeline E fuel a w).2 = trace w ++ new ∧
         Forall (expected_call (temp_dir_of E a) (resolved_inputs E a) (command_of E a)) new.
Proof.
  destruct (json_timeline_calls E fuel a w) as (new & Htr & Hall).
  exists new. split; [done|].
  eapply Forall_impl; [exact Hall|]. apply task_call_expected.
Qed.

(** X14 (a repeated base filename).  When an input's base filename is
    that of an input already staged, its source is a regular file and the
    operating system refuses nothing, its [os.link] raises the [OSError]
    for an existing destination (EEXIST): the task ends there, the files
    are as the earlier links left them, and the earlier entry is not
    replaced. *)
Theorem X14_repeated_base_filename
    (E : Env) (fuel : nat) (a : Args) (w w1 : World)
    (pre post : list InputFile) (f : InputFile) (p : string) (i : nat) :
  resolved_inputs E a = pre ++ f :: post →
  f !! "path" = Some p →
  basename p ∈ base_filenames pre →
  stage E (temp_dir_of E a) pre w = (Ret tt, w1) →
  lookup_node (fs w1) p = Some (File i) →
  os_fault E (Link p (temp_dir_of E a +:+ "/" +:+ basename p)) = None →
  json_timeline E fuel a w =
    (Raise (OSError (Link p (temp_dir_of E a +:+ "/" +:+ basename p)) EEXIST),
     mkWorld (fs w1) (trace w1 ++ [Link p (temp_dir_of E a +:+ "/" +:+ basename p)])).
Proof.
  intros Hfiles Hf Hdup Hst Hsrc Hok.
  set (tmp := temp_dir_of E a) in *. set (dst := tmp +:+ "/" +:+ basename p) in *.
  rewrite json_timeline_run; fold tmp. rewrite Hfiles.
  pose proof Hst as Hinv.
  apply stage_Ret in Hinv as (m & Hm & _ & _ & Hdom & _).
  assert (Htaken : is_Some (m !! basename p)).
  { apply elem_of_dom. rewrite Hdom. by apply elem_of_list_to_set. }
  unfold stage in Hst. apply bind_Ret_inv in Hst as ([] & w0 & Hmk & Hpre).
  rewrite (stage_is_link_files _ _ _ _ _ Hmk).
  rewrite (link_files_app _ _ _ _ _ _ Hpre), link_files_cons, Hf.
  fold dst. rewrite syscall_run, Hok. unfold fs_link. rewrite Hsrc.
  assert (Hpar : parent dst = tmp) by apply parent_child, basename_no_slash.
  assert (Hbase : basename dst = basename p) by apply basename_child, basename_no_slash.
  rewrite Hpar, Hbase, Hm.
  rewrite (bool_decide_eq_true_2 _ Htaken), orb_true_r. done.
Qed.

Lemma X14_witness :
  json_timeline Ex.env_ok 5 (Ex.args Ex.same_name) Ex.w0 =
    (Raise (OSError (Link "/evidence/a.evtx" "/out/c0ffee/a.evtx") EEXIST),
     mkWorld (fs (stage Ex.env_ok "/out/c0ffee" [Ex.input "/evidence/a.evtx"] Ex.w0).2)
             (trace (stage Ex.env_ok "/out/c0ffee" [Ex.input "/evidence/a.evtx"] Ex.w0).2
                ++ [Link "/evidence/a.evtx" "/out/c0ffee/a.evtx"])).
Proof.
  apply (X14_repeated_base_filename Ex.env_ok 5 (Ex.args Ex.same_name) Ex.w0 _
           [Ex.input "/evidence/a.evtx"] [] (Ex.input "/evidence/a.evtx")
           "/evidence/a.evtx" 1).
  - reflexivity.
  - vm_compute. reflexivity.
  - apply (bool_decide_unpack _). vm_compute. exact I.
  - vm_compute. reflexivity.
  - vm_compute. reflexivity.
  - reflexivity.
Defined.
